(** * Finance.py: a personal finance manager

    A shallow embedding of [src/Finance.py] (classes [FinancialRecord],
    [User] and [FinanceManager], and the update entry of the menu loop)
    together with the properties its specification states.

    Modelling choices, all read off the source:
    - Python dictionaries ([self.users], [self.financial_records]) are
      finite maps [gmap string _]; the list held under a key is a [list].
      Equality of maps is Python's [==] on dictionaries, which ignores the
      order of insertion; the objects of a saved file follow the order in
      which the map lists its entries, and no statement below depends on
      that order.
    - [amount] is a Python number; it is modelled as an integer [Z]
      (Python [int], which [json] reads and writes exactly).  Rounding of
      [float] amounts is outside this model.
    - [record_type] is whatever string the caller passes: the constructor
      does not validate it, so it is a [string], not an enumeration.
    - The two JSON files are part of the state, at the level of the parsed
      document ([json.dump] / [json.load] are the library's).
    - [print] is modelled by the list of items a call prints, and
      [datetime.now().strftime('%Y-%m-%d')] by a parameter [now].
    - The [pandas] calls are modelled by their documented meaning:
      [groupby(...).sum().reset_index()] yields one row per key, keys in
      ascending order, the sums being taken in the integer type the frame
      gives the amount column ([int64] and [uint64] wrap around);
      [pd.to_datetime] may raise and is a parameter. *)

From Stdlib Require Import ZArith Lia Ascii String.
From Stdlib Require Import OrderedTypeEx Sorted.
From stdpp Require Import base decidable option strings list gmap pretty.

Local Open Scope Z_scope.
Local Open Scope string_scope.
Local Open Scope list_scope.

(** ** Data model *)

(** [class FinancialRecord]: the five attributes set by [__init__]. *)
Record FinancialRecord := mkRecord {
  description : string;
  amount : Z;
  category : string;
  record_type : string;
  date : string
}.

(** [class User]. *)
Record User := mkUser {
  username : string;
  password : string
}.

(** [FinancialRecord.__init__]: [self.date = date or now].  [date] is
    [None] when the argument is omitted or is JSON [null]; the empty string
    is falsy as well. *)
Definition date_or (d : option string) (now : string) : string :=
  match d with
  | Some s => if decide (s = "") then now else s
  | None => now
  end.

Definition FinancialRecord_init (description : string) (amount : Z)
    (category record_type : string) (date : option string) (now : string)
    : FinancialRecord :=
  mkRecord description amount category record_type (date_or date now).

(** One object of the records file: [{'username': ..., **record.to_dict()}].
    [row_date] is [None] when the key is absent or null, which is what
    [record.get('date')] yields. *)
Record Row := mkRow {
  row_username : string;
  row_description : string;
  row_amount : Z;
  row_category : string;
  row_record_type : string;
  row_date : option string
}.

(** One object of the users file: [User.to_dict]. *)
Record UserRow := mkUserRow {
  urow_username : string;
  urow_password : string
}.

(** The state of a file on disk, as [load_financial_records] tells the
    cases apart: absent; of size zero; text that [json.load] rejects with
    [JSONDecodeError]; or a JSON array of objects that carry the keys the
    loaders read, which is what the save methods write.  Contents on which
    the code raises another exception (bytes that do not decode as text,
    JSON of another shape) are not among these states. *)
Inductive File (A : Type) : Type :=
  | Missing
  | ZeroBytes
  | Corrupt
  | Json (doc : list A).
Arguments Missing {A}.
Arguments ZeroBytes {A}.
Arguments Corrupt {A}.
Arguments Json {A} doc.

(** The object [FinanceManager], with the contents of the two files its
    attributes [users_file] and [finance_file] name. *)
Record FinanceManager := mkManager {
  users : gmap string User;
  current_user : option User;
  financial_records : gmap string (list FinancialRecord);
  users_file : File UserRow;
  finance_file : File Row
}.

Definition set_users (us : gmap string User) (m : FinanceManager) :=
  mkManager us (current_user m) (financial_records m) (users_file m) (finance_file m).
Definition set_current_user (u : option User) (m : FinanceManager) :=
  mkManager (users m) u (financial_records m) (users_file m) (finance_file m).
Definition set_financial_records (fr : gmap string (list FinancialRecord))
    (m : FinanceManager) :=
  mkManager (users m) (current_user m) fr (users_file m) (finance_file m).
Definition set_users_file (f : File UserRow) (m : FinanceManager) :=
  mkManager (users m) (current_user m) (financial_records m) f (finance_file m).
Definition set_finance_file (f : File Row) (m : FinanceManager) :=
  mkManager (users m) (current_user m) (financial_records m) (users_file m) f.

(** ** Console output *)

(** A row of the period report: period bucket, record_type, category and
    the summed amount.  A row of the spending distribution: category and
    the summed amount. *)
Definition ReportRow : Type := (Z * string * string) * Z.
Definition SpendingRow : Type := string * Z.

(** What one [print] call writes: a line of text, or a data frame. *)
Inductive Printed : Type :=
  | Text (s : string)
  | ReportFrame (rows : list ReportRow)
  | SpendingFrame (rows : list SpendingRow).

(** The effect of a method call: returned value, printed items in order,
    and the manager afterwards. *)
Record Run (A : Type) := mkRun {
  ret : A;
  printed : list Printed;
  after : FinanceManager
}.
Arguments mkRun {A} ret printed after.
Arguments ret {A} r.
Arguments printed {A} r.
Arguments after {A} r.

(** A call that may raise instead of returning. *)
Inductive Outcome (A : Type) : Type :=
  | Raised
  | Returned (r : Run A).
Arguments Raised {A}.
Arguments Returned {A} r.

(** ** Persistence *)

Definition User_to_dict (u : User) : UserRow :=
  mkUserRow (username u) (password u).

Definition to_row (user : string) (r : FinancialRecord) : Row :=
  mkRow user (description r) (amount r) (category r) (record_type r)
        (Some (date r)).

(** [save_users]: the file is overwritten with one object per user. *)
Definition save_users (m : FinanceManager) : FinanceManager :=
  set_users_file (Json (User_to_dict <$> (map_to_list (users m)).*2)) m.

(** The list [records_to_save] built by the two nested loops. *)
Definition records_to_save (fr : gmap string (list FinancialRecord)) : list Row :=
  flat_map (λ kv, to_row kv.1 <$> kv.2) (map_to_list fr).

(** [save_financial_records]: the file is overwritten with the whole store. *)
Definition save_financial_records (m : FinanceManager) : FinanceManager :=
  set_finance_file (Json (records_to_save (financial_records m))) m.

(** The body of the loop of [load_financial_records]. *)
Definition load_row (now : string) (fr : gmap string (list FinancialRecord))
    (record : Row) : gmap string (list FinancialRecord) :=
  let name := row_username record in
  let financial_record :=
    FinancialRecord_init (row_description record) (row_amount record)
      (row_category record) (row_record_type record) (row_date record) now in
  let fr := match fr !! name with
            | None => <[name := []]> fr
            | Some _ => fr
            end in
  alter (λ l, l ++ [financial_record]) name fr.

Definition corrupt_warning : string :=
  "Warning: The finance file is corrupted or invalid. Starting with an empty record set.".

(** [load_financial_records]: [self.financial_records] is rebuilt from the
    file; a file that is absent or of size zero, or one that [json.load]
    rejects with [JSONDecodeError], the only exception caught, gives the
    empty store (the latter with a warning). *)
Definition load_financial_records (now : string) (m : FinanceManager)
    : Run unit :=
  match finance_file m with
  | Json records_data =>
      mkRun tt [] (set_financial_records (foldl (load_row now) ∅ records_data) m)
  | Corrupt =>
      mkRun tt [Text corrupt_warning] (set_financial_records ∅ m)
  | Missing | ZeroBytes =>
      mkRun tt [] (set_financial_records ∅ m)
  end.

(** ** Users and the session *)

(** [register_user]. *)
Definition register_user (name pass : string) (m : FinanceManager)
    : Run bool :=
  match users m !! name with
  | Some _ => mkRun false [Text "Sorry! User already exists."] m
  | None =>
      let m := set_users (<[name := mkUser name pass]> (users m)) m in
      let m := save_users m in
      mkRun true [Text "User registered successfully."] m
  end.

(** [authenticate_user]. *)
Definition authenticate_user (name pass : string) (m : FinanceManager)
    : Run bool :=
  match users m !! name with
  | Some u =>
      if decide (password u = pass)
      then mkRun true [Text "Congrats! Authentication successful."]
                 (set_current_user (Some u) m)
      else mkRun false [Text "Invalid username or password. Try Again"] m
  | None => mkRun false [Text "Invalid username or password. Try Again"] m
  end.

(** ** The record store *)

(** [self.financial_records.get(name, [])]. *)
Definition records_get (m : FinanceManager) (name : string)
    : list FinancialRecord :=
  default [] (financial_records m !! name).

(** [add_record]; [now] is the date the constructor stamps. *)
Definition add_record (now : string) (new_description : string)
    (new_amount : Z) (new_category new_record_type : string)
    (m : FinanceManager) : Run unit :=
  match current_user m with
  | None => mkRun tt [Text "Please log in to add records."] m
  | Some u =>
      let record :=
        FinancialRecord_init new_description new_amount new_category
                             new_record_type None now in
      let fr := financial_records m in
      let fr := match fr !! username u with
                | None => <[username u := []]> fr
                | Some _ => fr
                end in
      let fr := alter (λ l, l ++ [record]) (username u) fr in
      let m := save_financial_records (set_financial_records fr m) in
      mkRun tt [Text "Record added successfully!!!."] m
  end.

(** The guard shared by [delete_record] and [update_record]:
    [record_index < 0 or record_index >= len(...get(username, []))]. *)
Definition index_out_of_range (record_index : Z) (l : list FinancialRecord)
    : bool :=
  bool_decide (record_index < 0) || bool_decide (record_index >= Z.of_nat (length l)).

(** [delete_record]: [del self.financial_records[name][record_index]]. *)
Definition delete_record (record_index : Z) (m : FinanceManager) : Run unit :=
  match current_user m with
  | None => mkRun tt [Text "Invalid record index. Try Again!"] m
  | Some u =>
      if index_out_of_range record_index (records_get m (username u))
      then mkRun tt [Text "Invalid record index. Try Again!"] m
      else
        let fr := alter (delete (Z.to_nat record_index)) (username u)
                        (financial_records m) in
        let m := save_financial_records (set_financial_records fr m) in
        mkRun tt [Text "Record deleted successfully!!!"] m
  end.

(** The four conditional assignments of [update_record] on one record;
    an argument that [is not None] is [Some] value. *)
Definition assign_fields (new_description : option string)
    (new_amount : option Z) (new_category new_record_type : option string)
    (record : FinancialRecord) : FinancialRecord :=
  let record := match new_description with
                | Some d => mkRecord d (amount record) (category record)
                              (record_type record) (date record)
                | None => record
                end in
  let record := match new_amount with
                | Some a => mkRecord (description record) a (category record)
                              (record_type record) (date record)
                | None => record
                end in
  let record := match new_category with
                | Some c => mkRecord (description record) (amount record) c
                              (record_type record) (date record)
                | None => record
                end in
  match new_record_type with
  | Some t => mkRecord (description record) (amount record)
                (category record) t (date record)
  | None => record
  end.

(** [update_record]. *)
Definition update_record (record_index : Z) (new_description : option string)
    (new_amount : option Z) (new_category new_record_type : option string)
    (m : FinanceManager) : Run unit :=
  match current_user m with
  | None => mkRun tt [Text "Invalid record index."] m
  | Some u =>
      if index_out_of_range record_index (records_get m (username u))
      then mkRun tt [Text "Invalid record index."] m
      else
        let fr := alter (alter (assign_fields new_description new_amount
                                              new_category new_record_type)
                               (Z.to_nat record_index))
                        (username u) (financial_records m) in
        let m := save_financial_records (set_financial_records fr m) in
        mkRun tt [Text "Congrats! Record updated successfully."] m
  end.

(** The line feed that starts the heading of [display_records]. *)
Definition nl : string := String "010"%char "".

(** The f-string printed for each record. *)
Definition record_line (index : nat) (record : FinancialRecord) : string :=
  pretty index +:+ ". " +:+ description record
    +:+ " | Amount: " +:+ pretty (amount record)
    +:+ " | Category: " +:+ category record
    +:+ " | Type: " +:+ record_type record
    +:+ " | Date: " +:+ date record.

(** [display_records]. *)
Definition display_records (m : FinanceManager) : Run unit :=
  match current_user m with
  | None => mkRun tt [Text "Please log in to view your records."] m
  | Some u =>
      match financial_records m !! username u with
      | None | Some [] => mkRun tt [Text "No records found at this time."] m
      | Some l =>
          mkRun tt
            (Text (nl +:+ "Here are Your Financial Records:")
               :: imap (λ index record, Text (record_line index record)) l)
            m
      end
  end.

(** ** The report engine *)

(** Python's [sum] over a generator of numbers: it starts from [0] and adds
    the items from left to right. *)
Definition py_sum (xs : list Z) : Z := foldl Z.add 0 xs.

(** [sum(record.amount for record in records if record.record_type == ty)]. *)
Definition sum_amounts (ty : string) (records : list FinancialRecord) : Z :=
  py_sum (amount <$> filter (λ record, record_type record = ty) records).

(** [calculate_totals]. *)
Definition calculate_totals (m : FinanceManager) : Run (option Z * option Z) :=
  match current_user m with
  | None =>
      mkRun (None, None)
            [Text "Please log in to calculate total income and expense."] m
  | Some u =>
      let total_income := sum_amounts "income" (records_get m (username u)) in
      let total_expenses := sum_amounts "expense" (records_get m (username u)) in
      mkRun (Some total_income, Some total_expenses) [] m
  end.

(** [calculate_savings]. *)
Definition calculate_savings (m : FinanceManager) : Run (option Z) :=
  match current_user m with
  | None => mkRun None [Text "Please log in to calculate savings."] m
  | Some u =>
      let total_income := sum_amounts "income" (records_get m (username u)) in
      let total_expenses := sum_amounts "expense" (records_get m (username u)) in
      let savings := total_income - total_expenses in
      mkRun (Some savings) [] m
  end.

(** The integer type [pandas] gives a column of Python integers: [int64]
    when every value fits it, [uint64] when none is negative and every
    value is below 2^64, and otherwise [object], which keeps the Python
    integers. *)
Inductive Dtype : Type := Int64 | UInt64 | Object.

Definition in_int64 (v : Z) : bool :=
  Z.leb (- 2 ^ 63) v && Z.ltb v (2 ^ 63).
Definition in_uint64 (v : Z) : bool :=
  Z.leb 0 v && Z.ltb v (2 ^ 64).

Definition infer_dtype (column : list Z) : Dtype :=
  if forallb in_int64 column then Int64
  else if forallb in_uint64 column then UInt64
  else Object.

(** An integer as the type holds it: [int64] and [uint64] arithmetic
    wraps around modulo 2^64, [object] arithmetic is Python's own. *)
Definition dtype_wrap (d : Dtype) (v : Z) : Z :=
  match d with
  | Int64 => (v + 2 ^ 63) `mod` 2 ^ 64 - 2 ^ 63
  | UInt64 => v `mod` 2 ^ 64
  | Object => v
  end.

(** The addition of two values of the column. *)
Definition dtype_add (d : Dtype) (x y : Z) : Z := dtype_wrap d (x + y).

(** [df.groupby(keys)['amount'].sum().reset_index()]: one row per distinct
    key holding the sum of the amounts under that key, the rows in
    ascending key order ([groupby] sorts by default).  [group_add] files one
    data row into the groups built so far, [add] being the addition of the
    amount column. *)
Section GroupBy.
Context {K : Type} (add : Z → Z → Z) (cmp : K → K → comparison).

Fixpoint group_add (k : K) (v : Z) (groups : list (K * Z)) : list (K * Z) :=
  match groups with
  | [] => [(k, v)]
  | (k', v') :: rest =>
      match cmp k k' with
      | Eq => (k', add v' v) :: rest
      | Lt => (k, v) :: groups
      | Gt => (k', v') :: group_add k v rest
      end
  end.

Definition groupby_sum (rows : list (K * Z)) : list (K * Z) :=
  foldl (λ groups kv, group_add kv.1 kv.2 groups) [] rows.
End GroupBy.

(** The order of the three-part key of the period report. *)
Definition report_key_compare (a b : Z * string * string) : comparison :=
  match Z.compare a.1.1 b.1.1 with
  | Eq => match String.compare a.1.2 b.1.2 with
          | Eq => String.compare a.2 b.2
          | c => c
          end
  | c => c
  end.

Section Pandas.
(** [pd.to_datetime] applied to the date column: the column of
    timestamps, or [None] when it raises on a value it cannot parse.
    [to_period_M] and [to_period_W] are [.dt.to_period('M')] and
    [.dt.to_period('W')], a period being identified by its ordinal. *)
Context {Timestamp : Type}.
Variable to_datetime : list string → option (list Timestamp).
Variable to_period_M : Timestamp → Z.
Variable to_period_W : Timestamp → Z.

(** The rows grouped by the report: the records of the frame next to
    their parsed dates. *)
Definition report_rows (to_period : Timestamp → Z)
    (df : list (Timestamp * FinancialRecord)) : list ReportRow :=
  (λ row, ((to_period row.1, record_type row.2, category row.2),
           amount row.2)) <$> df.

(** [generate_report]. *)
Definition generate_report (period : string) (m : FinanceManager)
    : Outcome (option (list ReportRow)) :=
  match current_user m with
  | None =>
      Returned (mkRun None [Text "Please log in to generate reports."] m)
  | Some u =>
      match financial_records m !! username u with
      | None | Some [] =>
          Returned (mkRun None
                      [Text "No records available for generating reports."] m)
      | Some records =>
          match to_datetime (date <$> records) with
          | None => Raised
          | Some dates =>
              let df := zip dates records in
              let dtype := infer_dtype (amount <$> records) in
              if decide (period = "monthly") then
                let report :=
                  groupby_sum (dtype_add dtype) report_key_compare
                              (report_rows to_period_M df) in
                Returned (mkRun (Some report) [ReportFrame report] m)
              else if decide (period = "weekly") then
                let report :=
                  groupby_sum (dtype_add dtype) report_key_compare
                              (report_rows to_period_W df) in
                Returned (mkRun (Some report) [ReportFrame report] m)
              else
                Returned (mkRun None [Text "Invalid period specified."] m)
          end
      end
  end.

(** The rows of [expense_df], reduced to the two columns the grouping
    uses. *)
Definition expense_rows (records : list FinancialRecord) : list SpendingRow :=
  (λ record, (category record, amount record))
    <$> filter (λ record, record_type record = "expense") records.

(** [view_spending_distribution]; it returns nothing and prints the
    frame. *)
Definition view_spending_distribution (m : FinanceManager) : Outcome unit :=
  match current_user m with
  | None =>
      Returned (mkRun tt [Text "Please log in to view spending distribution."] m)
  | Some u =>
      match financial_records m !! username u with
      | None | Some [] =>
          Returned
            (mkRun tt
               [Text "No records available to calculate spending distribution."]
               m)
      | Some records =>
          match to_datetime (date <$> records) with
          | None => Raised
          | Some _ =>
              match expense_rows records with
              | [] => Returned (mkRun tt [Text "No expenses recorded."] m)
              | expense_df =>
                  let dtype := infer_dtype (amount <$> records) in
                  let spending_distribution :=
                    groupby_sum (dtype_add dtype) String.compare expense_df in
                  Returned
                    (mkRun tt
                       [Text (nl +:+ "Spending Distribution by Category:");
                        SpendingFrame spending_distribution]
                       m)
              end
          end
      end
  end.
End Pandas.

(** ** The update entry of the menu *)

Section Menu.
(** [int(...)] and [float(...)] on a line of input; [None] is
    [ValueError]. *)
Variable python_int : string → option Z.
Variable python_float : string → option Z.

(** [s or None] on a string. *)
Definition or_None (s : string) : option string :=
  if decide (s = "") then None else Some s.

(** [float(amount) if amount else None]; the outer [None] is
    [ValueError]. *)
Definition amount_or_None (amount : string) : option (option Z) :=
  if decide (amount = "") then Some None else Some <$> python_float amount.

(** Choice [5] of the menu loop, on the five lines it reads. *)
Definition menu_update (index_in description_in amount_in category_in
    type_in : string) (m : FinanceManager) : Run unit :=
  let banner := Text "******UPDATE RECORDS******" in
  match current_user m with
  | None => mkRun tt [banner; Text "Please log in first."] m
  | Some _ =>
      let shown := display_records m in
      let value_error :=
        Text "Invalid input. Please enter numeric values for amount and valid index." in
      match python_int index_in, amount_or_None amount_in with
      | Some record_index, Some new_amount =>
          let r := update_record record_index (or_None description_in)
                     new_amount (or_None category_in) (or_None type_in)
                     (after shown) in
          mkRun tt (banner :: printed shown ++ printed r) (after r)
      | _, _ =>
          mkRun tt (banner :: printed shown ++ [value_error]) (after shown)
      end
  end.
End Menu.

(** ** Sequences of calls *)

(** One [add_record] call per element of [rs], in order: the call made on
    the day [date r] with the other four fields of [r] as arguments. *)
Definition add_each (rs : list FinancialRecord) (m : FinanceManager)
    : FinanceManager :=
  foldl (λ m r, after (add_record (date r) (description r) (amount r)
                                  (category r) (record_type r) m)) m rs.

(** The record lines among the printed items of [display_records]: every
    item after the heading. *)
Definition listing (m : FinanceManager) : list Printed :=
  match printed (display_records m) with
  | Text heading :: lines =>
      if decide (heading = nl +:+ "Here are Your Financial Records:")
      then lines else []
  | _ => []
  end.

(** ** Conditions named by the specification *)

(** "index is out of bounds [0, count) for that user, or no user is
    authenticated". *)
Definition no_valid_target (record_index : Z) (m : FinanceManager) : Prop :=
  current_user m = None
  ∨ ∃ u, current_user m = Some u
         ∧ ¬ (0 ≤ record_index < Z.of_nat (length (records_get m (username u)))).

(** "sums amounts of records with record_type = [ty]": the sum over the
    user's sequence, written by recursion on the sequence. *)
Fixpoint total_of (ty : string) (records : list FinancialRecord) : Z :=
  match records with
  | [] => 0
  | record :: rest =>
      (if decide (record_type record = ty) then amount record else 0)
      + total_of ty rest
  end.

(** ** Reading a grouped frame *)

Section Frames.
Context {K : Type} `{EqDecision K} (cmp : K → K → comparison).

(** The sum a frame lists under key [k], when it has a row for [k]. *)
Fixpoint group_get (k : K) (groups : list (K * Z)) : option Z :=
  match groups with
  | [] => None
  | (k', v') :: rest =>
      match cmp k k' with
      | Eq => Some v'
      | _ => group_get k rest
      end
  end.

(** The rows of a frame come in strictly ascending key order. *)
Definition ascending (groups : list (K * Z)) : Prop :=
  StronglySorted (λ x y, cmp x.1 y.1 = Lt) groups.

(** A frame whose sums are held in the integer type [d]. *)
Definition wrap_rows (d : Dtype) (groups : list (K * Z)) : list (K * Z) :=
  (λ kv, (kv.1, dtype_wrap d kv.2)) <$> groups.

(** The sum of the values that the data rows hold under key [k]. *)
Fixpoint key_total (k : K) (rows : list (K * Z)) : Z :=
  match rows with
  | [] => 0
  | (k', v) :: rest => (if decide (k' = k) then v else 0) + key_total k rest
  end.
End Frames.

(** "filters to record_type = expense, groups by category, sums amount":
    the amount spent under category [c], by recursion on the user's
    sequence, and whether anything at all was spent under it. *)
Fixpoint category_total (c : string) (records : list FinancialRecord) : Z :=
  match records with
  | [] => 0
  | record :: rest =>
      (if decide (record_type record = "expense" ∧ category record = c)
       then amount record else 0)
      + category_total c rest
  end.

Definition spends_on (c : string) (records : list FinancialRecord) : Prop :=
  ∃ record, record ∈ records
            ∧ record_type record = "expense" ∧ category record = c.

(** ** Saving and loading again *)

(** Every record of the store carries a date: [FinancialRecord.__init__]
    puts the current date where none is given, and nothing resets it. *)
Definition dated (l : list FinancialRecord) : Prop :=
  Forall (λ record, date record ≠ "") l.

Definition dates_set (fr : gmap string (list FinancialRecord)) : Prop :=
  map_Forall (λ _ l, dated l) fr.

(** "serialize store to file, reload": the manager after
    [save_financial_records] followed by [load_financial_records]. *)
Definition reload (now : string) (m : FinanceManager) : FinanceManager :=
  after (load_financial_records now (save_financial_records m)).

(** ** Sample data used by the examples *)

Definition alice : User := mkUser "alice" "Secret".

Definition rec_salary : FinancialRecord :=
  mkRecord "salary" 100 "job" "income" "2024-03-01".
Definition rec_lunch : FinancialRecord :=
  mkRecord "lunch" 30 "food" "expense" "2024-03-02".

(** A manager with one registered user and nobody logged in. *)
Definition m_registered : FinanceManager :=
  mkManager {[ "alice" := alice ]} None ∅
            (Json [User_to_dict alice]) Missing.

(** The same manager after [alice] has logged in. *)
Definition m_logged_in : FinanceManager :=
  set_current_user (Some alice) m_registered.

(** [alice] logged in and holding the given records. *)
Definition m_with (records : list FinancialRecord) : FinanceManager :=
  set_financial_records {[ "alice" := records ]} m_logged_in.

(** A reader of unsigned decimal numerals, standing in for [int] and
    [float] in the examples: [None] where Python raises [ValueError]. *)
Definition digit_value (c : ascii) : option Z :=
  let n := Z.of_nat (nat_of_ascii c) in
  if bool_decide (48 ≤ n ≤ 57)%Z then Some (n - 48) else None.

Fixpoint digits_value (acc : Z) (s : string) : option Z :=
  match s with
  | EmptyString => Some acc
  | String c s =>
      match digit_value c with
      | Some d => digits_value (10 * acc + d) s
      | None => None
      end
  end.

Definition decimal (s : string) : option Z :=
  if decide (s = "") then None else digits_value 0 s.

(** A reading of the [pandas] parameters for the examples: the date column
    must hold calendar dates written YYYY-MM-DD, within the years a
    timestamp can hold; a timestamp is the triple (year, month, day), and
    the ordinal of a period is the one [pandas] gives it: months count from
    January 1970, weeks run from Monday to Sunday and the week of 1 January
    1970 is week 1. *)
Definition leap_year (y : Z) : bool :=
  (Z.eqb (y `mod` 4) 0 && negb (Z.eqb (y `mod` 100) 0))
  || Z.eqb (y `mod` 400) 0.

Definition days_in_month (y mo : Z) : Z :=
  if Z.eqb mo 2 then (if leap_year y then 29 else 28)
  else if Z.eqb mo 4 || Z.eqb mo 6 || Z.eqb mo 9 || Z.eqb mo 11 then 30
  else 31.

Definition iso_date (s : string) : option (Z * Z * Z) :=
  match decimal (substring 0 4 s), decimal (substring 5 2 s),
        decimal (substring 8 2 s) with
  | Some y, Some mo, Some d =>
      if bool_decide (String.length s = 10%nat ∧ substring 4 1 s = "-"
                      ∧ substring 7 1 s = "-"
                      ∧ (1678 ≤ y ≤ 2261)%Z
                      ∧ (1 ≤ mo ≤ 12)%Z ∧ (1 ≤ d ≤ days_in_month y mo)%Z)
      then Some (y, mo, d) else None
  | _, _, _ => None
  end.

Definition iso_dates (column : list string) : option (list (Z * Z * Z)) :=
  mapM iso_date column.

Definition month_ordinal (t : Z * Z * Z) : Z :=
  (t.1.1 - 1970) * 12 + (t.1.2 - 1).

(** Days since 1 January 1970 in the proleptic Gregorian calendar. *)
Definition days_from_civil (t : Z * Z * Z) : Z :=
  let y := if bool_decide (t.1.2 ≤ 2)%Z then t.1.1 - 1 else t.1.1 in
  let era := y `div` 400 in
  let yoe := y - era * 400 in
  let mp := if bool_decide (t.1.2 ≤ 2)%Z then t.1.2 + 9 else t.1.2 - 3 in
  let doy := (153 * mp + 2) `div` 5 + t.2 - 1 in
  let doe := yoe * 365 + yoe `div` 4 - yoe `div` 100 + doy in
  era * 146097 + doe - 719468.

Definition week_ordinal (t : Z * Z * Z) : Z :=
  (days_from_civil t + 3) `div` 7 + 1.

Definition rec_groceries : FinancialRecord :=
  mkRecord "groceries" 20 "food" "expense" "2024-03-03".
Definition rec_snack : FinancialRecord :=
  mkRecord "snack" 10 "food" "expense" "2024-03-04".
Definition rec_flat : FinancialRecord :=
  mkRecord "flat" 50 "rent" "expense" "2024-03-05".

(** ** Start-up *)

(** [load_users]: the dictionary built by the comprehension over the
    objects of the users file, a later object replacing an earlier one of
    the same username; the empty dictionary when the file is absent.
    [None] stands for the [JSONDecodeError] of [json.load], which is not
    caught here: it is raised on a file of size zero as on any other text
    that is not JSON. *)
Definition load_users (f : File UserRow) : option (gmap string User) :=
  match f with
  | Missing => Some ∅
  | ZeroBytes | Corrupt => None
  | Json users_data =>
      Some (foldl (λ users user,
                     <[urow_username user :=
                         mkUser (urow_username user) (urow_password user)]>
                       users)
                  ∅ users_data)
  end.

(** [FinanceManager.__init__] on the contents of the two files; on the
    file states of [File] only [load_users] can raise. *)
Definition FinanceManager_init (now : string) (users_file : File UserRow)
    (finance_file : File Row) : Outcome unit :=
  match load_users users_file with
  | None => Raised
  | Some users =>
      Returned (load_financial_records now
                  (mkManager users None ∅ users_file finance_file))
  end.

(** ** Typing a password *)

(** The keys [msvcrt.getch] delivers are single bytes. *)
Definition key_CR : ascii := "013"%char.
Definition key_LF : ascii := "010"%char.
Definition key_BS : ascii := "008"%char.

(** [password[:-1]]. *)
Definition but_last (s : string) : string :=
  substring 0 (String.length s - 1) s.

(** The text that wipes the last asterisk: back, blank, back. *)
Definition erase_seq : string :=
  String key_BS (String " " (String key_BS "")).

(** How a call of [input_password] ends: it returns the password, having
    written [writes] to the terminal (one element per [print] call) and
    left [rest] unread; or [char.decode()] raises on a byte that is not
    ASCII; or [getch] waits for a key that the stream does not hold. *)
Inductive Typing : Type :=
  | Entered (password : string) (writes : list string) (rest : list ascii)
  | DecodeError
  | AwaitingKey.

(** The [while True] loop of [input_password]. *)
Fixpoint input_password_loop (keys : list ascii) (password : string)
    (writes : list string) : Typing :=
  match keys with
  | [] => AwaitingKey
  | char :: keys =>
      if decide (char = key_CR ∨ char = key_LF) then
        Entered password (writes ++ [nl]) keys
      else if decide (char = key_BS) then
        if decide (password = "") then
          input_password_loop keys password writes
        else
          input_password_loop keys (but_last password)
                              (writes ++ [erase_seq])
      else if decide (nat_of_ascii char < 128)%nat then
        input_password_loop keys (password +:+ String char "")
                            (writes ++ ["*"])
      else DecodeError
  end.

(** [input_password]. *)
Definition input_password (prompt : string) (keys : list ascii) : Typing :=
  input_password_loop keys "" [prompt].

(** ** The add and delete entries of the menu *)

Section MenuEntries.
Variable python_int : string → option Z.
Variable python_float : string → option Z.

(** Choice [3] of the menu loop, on the four lines it reads; a
    [ValueError] of [float] ends the turn before the category is asked. *)
Definition menu_add (now : string) (description_in amount_in category_in
    type_in : string) (m : FinanceManager) : Run unit :=
  let banner := Text "******ADD RECORDS******" in
  match current_user m with
  | None => mkRun tt [banner; Text "Please log in first."] m
  | Some _ =>
      let shown := display_records m in
      match python_float amount_in with
      | None =>
          mkRun tt
            (banner :: printed shown
               ++ [Text "Invalid amount. Please enter a numeric value."])
            (after shown)
      | Some new_amount =>
          let r := add_record now description_in new_amount category_in
                              type_in (after shown) in
          mkRun tt (banner :: printed shown ++ printed r) (after r)
      end
  end.

(** Choice [4] of the menu loop, on the line it reads. *)
Definition menu_delete (index_in : string) (m : FinanceManager) : Run unit :=
  let banner := Text "******DELETE RECORDS******" in
  match current_user m with
  | None => mkRun tt [banner; Text "Please log in first."] m
  | Some _ =>
      let shown := display_records m in
      match python_int index_in with
      | None =>
          mkRun tt
            (banner :: printed shown
               ++ [Text "Invalid index. Please enter a numeric value."])
            (after shown)
      | Some record_index =>
          let r := delete_record record_index (after shown) in
          mkRun tt (banner :: printed shown ++ printed r) (after r)
      end
  end.
End MenuEntries.

(** ** Notions used by the further properties *)

(** Every entry of the user store sits under the username it carries. *)
Definition keyed (us : gmap string User) : Prop :=
  map_Forall (λ name u, username u = name) us.

(** The user store is well keyed and the session, when there is one,
    holds a user of the store. *)
Definition session_ok (m : FinanceManager) : Prop :=
  keyed (users m)
  ∧ ∀ u, current_user m = Some u → users m !! username u = Some u.

(** The files hold what [save_users] and [save_financial_records] write
    for the stores in memory. *)
Definition synced (m : FinanceManager) : Prop :=
  users_file m = Json (User_to_dict <$> (map_to_list (users m)).*2)
  ∧ finance_file m = Json (records_to_save (financial_records m)).

(** The record a row of the file is loaded as. *)
Definition row_record (now : string) (row : Row) : FinancialRecord :=
  FinancialRecord_init (row_description row) (row_amount row)
    (row_category row) (row_record_type row) (row_date row) now.

(** The rows of a file that belong to [name], in file order, as records. *)
Definition rows_of (now : string) (name : string) (rows : list Row)
    : list FinancialRecord :=
  row_record now <$> filter (λ row, row_username row = name) rows.

(** The sum of the amount column of a grouped frame. *)
Definition frame_total {K : Type} (groups : list (K * Z)) : Z :=
  foldr (λ kv acc, kv.2 + acc) 0 groups.

(** The text a run of keys leaves in the password: each ASCII key is
    appended and each backspace removes the last character, if any. *)
Fixpoint typed_text (keys : list ascii) (password : string) : string :=
  match keys with
  | [] => password
  | char :: keys =>
      if decide (char = key_BS) then typed_text keys (but_last password)
      else typed_text keys (password +:+ String char "")
  end.

(** The password a call returns, if it returns one. *)
Definition typing_password (t : Typing) : option string :=
  match t with
  | Entered password _ _ => Some password
  | _ => None
  end.

(** A key that [input_password] appends to the password. *)
Definition plain_key (char : ascii) : Prop :=
  char ≠ key_CR ∧ char ≠ key_LF ∧ char ≠ key_BS
  ∧ (nat_of_ascii char < 128)%nat.

(** * Properties *)

(** ** The user store *)

Lemma register_user_taken name pass m u :
  users m !! name = Some u →
  register_user name pass m = mkRun false [Text "Sorry! User already exists."] m.
Proof. intros Hu. unfold register_user. by rewrite Hu. Qed.

Lemma register_user_fresh name pass m :
  users m !! name = None →
  register_user name pass m
  = mkRun true [Text "User registered successfully."]
      (save_users (set_users (<[name := mkUser name pass]> (users m)) m)).
Proof. intros Hu. unfold register_user. by rewrite Hu. Qed.

Lemma register_user_present name pass m :
  is_Some (users (after (register_user name pass m)) !! name).
Proof.
  destruct (users m !! name) as [u|] eqn:Hu.
  - rewrite (register_user_taken _ _ _ u Hu). simpl. by rewrite Hu.
  - rewrite (register_user_fresh _ _ _ Hu). simpl.
    rewrite lookup_insert_eq. by eexists.
Qed.

(** C5. Registering a username that is already in the user store returns
    [False] and changes nothing, neither the store nor the users file nor
    any other part of the manager; in particular a second registration of
    the same name fails that way whatever the first one did.  Registering
    a username that is not present returns [True], puts the new user under
    that key, keeps every other entry, and rewrites the users file from the
    new store. *)
Theorem register_user_spec (name pass : string) (m : FinanceManager) :
  (is_Some (users m !! name) →
     ret (register_user name pass m) = false
     ∧ after (register_user name pass m) = m)
  ∧ (users m !! name = None →
     let m' := after (register_user name pass m) in
     ret (register_user name pass m) = true
     ∧ users m' !! name = Some (mkUser name pass)
     ∧ (∀ other, other ≠ name → users m' !! other = users m !! other)
     ∧ users_file m' = Json (User_to_dict <$> (map_to_list (users m')).*2)
     ∧ current_user m' = current_user m
     ∧ financial_records m' = financial_records m
     ∧ finance_file m' = finance_file m)
  ∧ (∀ pass2,
     let m1 := after (register_user name pass m) in
     ret (register_user name pass2 m1) = false
     ∧ after (register_user name pass2 m1) = m1).
Proof.
  split; [|split].
  - intros [u Hu]. by rewrite (register_user_taken _ _ _ u Hu).
  - intros Hu. rewrite (register_user_fresh _ _ _ Hu). simpl.
    rewrite lookup_insert_eq. repeat split; try done.
    intros other Hne. by rewrite lookup_insert_ne.
  - intros pass2 m1.
    destruct (register_user_present name pass m) as [u Hu]. fold m1 in Hu.
    by rewrite (register_user_taken _ _ _ u Hu).
Qed.

Lemma register_user_spec_witness :
  is_Some (users m_registered !! "alice")
  ∧ users m_registered !! "bob" = None
  ∧ ret (register_user "alice" "other" m_registered) = false
  ∧ ret (register_user "bob" "pw" m_registered) = true.
Proof.
  assert (Ha : is_Some (users m_registered !! "alice")) by (by eexists).
  assert (Hb : users m_registered !! "bob" = None) by reflexivity.
  split; [exact Ha|]. split; [exact Hb|]. split.
  - exact (proj1 (proj1 (register_user_spec "alice" "other" m_registered) Ha)).
  - exact (proj1 (proj1 (proj2 (register_user_spec "bob" "pw" m_registered)) Hb)).
Defined.

(** C6. Authentication returns [True] exactly when the username is in the
    user store and the stored password equals the supplied one (equality of
    strings: case-sensitive, nothing hashed).  When it returns [True] the
    current user becomes the stored user of that name; when it returns
    [False] the manager, and so the current user, is unchanged.  In both
    cases the stores and the files are untouched. *)
Theorem authenticate_user_spec (name pass : string) (m : FinanceManager) :
  let r := authenticate_user name pass m in
  (ret r = true ↔ ∃ u, users m !! name = Some u ∧ password u = pass)
  ∧ (ret r = true → current_user (after r) = users m !! name)
  ∧ (ret r = false → after r = m)
  ∧ users (after r) = users m
  ∧ financial_records (after r) = financial_records m
  ∧ users_file (after r) = users_file m
  ∧ finance_file (after r) = finance_file m.
Proof.
  unfold authenticate_user.
  destruct (users m !! name) as [u|] eqn:Hu; [destruct (decide _) as [Hp|Hp]|];
    simpl.
  - repeat split; try done. intros _. by exists u.
  - repeat split; try done. intros (u' & Hu' & Hp'). congruence.
  - repeat split; try done. intros (u' & Hu' & _). congruence.
Qed.

Lemma authenticate_user_spec_witness :
  ret (authenticate_user "alice" "Secret" m_registered) = true
  ∧ current_user (after (authenticate_user "alice" "Secret" m_registered))
    = Some alice
  ∧ ret (authenticate_user "alice" "secret" m_registered) = false
  ∧ after (authenticate_user "alice" "secret" m_registered) = m_registered.
Proof.
  pose proof (authenticate_user_spec "alice" "Secret" m_registered) as Hok.
  pose proof (authenticate_user_spec "alice" "secret" m_registered) as Hbad.
  simpl in Hok, Hbad.
  destruct Hok as (_ & Hset & _). destruct Hbad as (_ & _ & Hkeep & _).
  split; [reflexivity|]. split; [exact (Hset eq_refl)|].
  split; [reflexivity|]. exact (Hkeep eq_refl).
Defined.

(** ** The record store *)

Section Store.
Implicit Types (fr : gmap string (list FinancialRecord)).
Implicit Types (l : list FinancialRecord) (m : FinanceManager).

Lemma alter_present (f : list FinancialRecord → list FinancialRecord) fr k l :
  fr !! k = Some l → alter f k fr = <[k := f l]> fr.
Proof.
  intros Hk. apply map_eq. intros j.
  destruct (decide (k = j)) as [->|Hne].
  - by rewrite lookup_alter_eq, lookup_insert_eq, Hk.
  - by rewrite lookup_alter_ne, lookup_insert_ne.
Qed.

(** Creating the key when it is missing and then appending amounts to
    storing the old list, or the empty one, with the record at its end. *)
Lemma store_append fr k (r : FinancialRecord) :
  alter (λ l, l ++ [r]) k
    (match fr !! k with None => <[k := []]> fr | Some _ => fr end)
  = <[k := default [] (fr !! k) ++ [r]]> fr.
Proof.
  destruct (fr !! k) as [l|] eqn:Hk; simpl.
  - exact (alter_present (λ l, l ++ [r]) fr k l Hk).
  - by rewrite alter_insert_eq.
Qed.

Lemma records_get_set m fr k :
  records_get (save_financial_records (set_financial_records fr m)) k
  = default [] (fr !! k).
Proof. reflexivity. Qed.

Lemma add_record_logged_in now d a c t m u :
  current_user m = Some u →
  add_record now d a c t m
  = mkRun tt [Text "Record added successfully!!!."]
      (save_financial_records
         (set_financial_records
            (<[username u := records_get m (username u) ++ [mkRecord d a c t now]]>
               (financial_records m)) m)).
Proof.
  intros Hu. unfold add_record. rewrite Hu.
  unfold FinancialRecord_init, records_get. simpl.
  by rewrite store_append.
Qed.

Lemma add_record_current_user now d a c t m :
  current_user (after (add_record now d a c t m)) = current_user m.
Proof. unfold add_record. by destruct (current_user m) eqn:Hu. Qed.

Lemma add_each_current_user rs m :
  current_user (add_each rs m) = current_user m.
Proof.
  revert m. induction rs as [|r rs IH]; intros m; [done|].
  unfold add_each in *. simpl. by rewrite IH, add_record_current_user.
Qed.

Lemma add_each_records rs m u :
  current_user m = Some u →
  records_get (add_each rs m) (username u) = records_get m (username u) ++ rs.
Proof.
  revert m. induction rs as [|r rs IH]; intros m Hu.
  - by rewrite app_nil_r.
  - change (add_each (r :: rs) m)
      with (add_each rs (after (add_record (date r) (description r)
              (amount r) (category r) (record_type r) m))).
    rewrite IH by (by rewrite add_record_current_user).
    rewrite (add_record_logged_in _ _ _ _ _ _ _ Hu). simpl.
    rewrite records_get_set, lookup_insert_eq. simpl.
    destruct r. by rewrite <- app_assoc.
Qed.

Lemma add_each_others rs m u other :
  current_user m = Some u → other ≠ username u →
  financial_records (add_each rs m) !! other = financial_records m !! other.
Proof.
  revert m. induction rs as [|r rs IH]; intros m Hu Hne; [done|].
  change (add_each (r :: rs) m)
    with (add_each rs (after (add_record (date r) (description r)
            (amount r) (category r) (record_type r) m))).
  rewrite IH by (by rewrite ?add_record_current_user).
  rewrite (add_record_logged_in _ _ _ _ _ _ _ Hu). simpl.
  by rewrite lookup_insert_ne.
Qed.

Lemma display_records_after m : after (display_records m) = m.
Proof.
  unfold display_records. destruct (current_user m); [|done].
  by destruct (financial_records m !! _) as [[|]|].
Qed.

Lemma display_records_printed m u :
  current_user m = Some u →
  printed (display_records m)
  = match records_get m (username u) with
    | [] => [Text "No records found at this time."]
    | l => Text (nl +:+ "Here are Your Financial Records:")
             :: imap (λ index record, Text (record_line index record)) l
    end.
Proof.
  intros Hu. unfold display_records, records_get. rewrite Hu.
  by destruct (financial_records m !! _) as [[|]|].
Qed.

Lemma listing_logged_in m u :
  current_user m = Some u →
  listing m
  = imap (λ index record, Text (record_line index record))
         (records_get m (username u)).
Proof.
  intros Hu. unfold listing. rewrite (display_records_printed _ _ Hu).
  destruct (records_get m (username u)); [done|].
  by rewrite decide_True.
Qed.
End Store.

(** C4. For a logged-in user, [add_record] appends the new record, stamped
    with the current date, at the end of that user's list, leaves the other
    users' lists alone and rewrites the records file from the new store.
    After a sequence of N such calls the user's list is the old list
    followed by the N new records in the order of the calls, and
    [display_records] lists exactly one line per record, in that order and
    numbered from 0: N lines when the user had no records before.  For a
    user with no records the listing is empty (the message "No records
    found at this time." is printed instead), and [display_records] never
    changes the manager. *)
Theorem add_then_display_spec (m : FinanceManager) (u : User)
    (Hu : current_user m = Some u) :
  (∀ now d a c t,
     let m' := after (add_record now d a c t m) in
     records_get m' (username u)
     = records_get m (username u) ++ [mkRecord d a c t now]
     ∧ (∀ other, other ≠ username u →
          financial_records m' !! other = financial_records m !! other)
     ∧ finance_file m' = Json (records_to_save (financial_records m')))
  ∧ (∀ rs,
     records_get (add_each rs m) (username u) = records_get m (username u) ++ rs
     ∧ listing (add_each rs m)
       = imap (λ index record, Text (record_line index record))
              (records_get m (username u) ++ rs)
     ∧ (records_get m (username u) = [] →
        length (listing (add_each rs m)) = length rs
        ∧ ∀ i r, rs !! i = Some r →
            listing (add_each rs m) !! i = Some (Text (record_line i r))))
  ∧ (records_get m (username u) = [] →
     listing m = []
     ∧ printed (display_records m) = [Text "No records found at this time."])
  ∧ (∀ m0, after (display_records m0) = m0).
Proof.
  split; [|split; [|split]].
  - intros now d a c t m'. subst m'.
    rewrite (add_record_logged_in _ _ _ _ _ _ _ Hu). simpl.
    split; [|split; [|done]].
    + by rewrite records_get_set, lookup_insert_eq.
    + intros other Hne. by rewrite lookup_insert_ne.
  - intros rs.
    assert (Hl : listing (add_each rs m)
                 = imap (λ index record, Text (record_line index record))
                        (records_get m (username u) ++ rs)).
    { rewrite (listing_logged_in _ u) by (by rewrite add_each_current_user).
      by rewrite add_each_records. }
    split; [by apply add_each_records|]. split; [exact Hl|].
    intros Hnil. rewrite Hl, Hnil. simpl. split.
    + by rewrite length_imap.
    + intros i r Hi. by rewrite list_lookup_imap, Hi.
  - intros Hnil. rewrite (listing_logged_in _ _ Hu), Hnil.
    split; [done|]. by rewrite (display_records_printed _ _ Hu), Hnil.
  - apply display_records_after.
Qed.

Lemma add_then_display_spec_witness :
  current_user m_logged_in = Some alice
  ∧ listing (add_each [rec_salary; rec_lunch] m_logged_in)
    = [Text "0. salary | Amount: 100 | Category: job | Type: income | Date: 2024-03-01";
       Text "1. lunch | Amount: 30 | Category: food | Type: expense | Date: 2024-03-02"].
Proof.
  split; [reflexivity|].
  pose proof (add_then_display_spec m_logged_in alice eq_refl) as (_ & H & _).
  destruct (H [rec_salary; rec_lunch]) as (_ & Hl & _).
  exact Hl.
Defined.

Section Guard.
Implicit Types (l : list FinancialRecord) (m : FinanceManager).

Lemma index_out_of_range_false record_index l :
  index_out_of_range record_index l = false
  ↔ 0 ≤ record_index < Z.of_nat (length l).
Proof.
  unfold index_out_of_range.
  rewrite orb_false_iff, !bool_decide_eq_false. lia.
Qed.

Lemma index_out_of_range_true record_index l :
  index_out_of_range record_index l = true
  ↔ ¬ (0 ≤ record_index < Z.of_nat (length l)).
Proof.
  rewrite <- index_out_of_range_false.
  by destruct (index_out_of_range record_index l).
Qed.

Lemma in_range_lookup record_index l :
  0 ≤ record_index < Z.of_nat (length l) →
  is_Some (l !! Z.to_nat record_index).
Proof. intros H. apply lookup_lt_is_Some. lia. Qed.

Lemma in_range_stored record_index m name :
  0 ≤ record_index < Z.of_nat (length (records_get m name)) →
  financial_records m !! name = Some (records_get m name).
Proof.
  unfold records_get. destruct (financial_records m !! name); [done|].
  simpl. lia.
Qed.

Lemma delete_record_rejected record_index m :
  no_valid_target record_index m →
  delete_record record_index m
  = mkRun tt [Text "Invalid record index. Try Again!"] m.
Proof.
  unfold delete_record. intros [Hn|(u & Hu & Hr)].
  - by rewrite Hn.
  - rewrite Hu. apply index_out_of_range_true in Hr. by rewrite Hr.
Qed.

Lemma delete_record_accepted record_index m u :
  current_user m = Some u →
  0 ≤ record_index < Z.of_nat (length (records_get m (username u))) →
  delete_record record_index m
  = mkRun tt [Text "Record deleted successfully!!!"]
      (save_financial_records
         (set_financial_records
            (<[username u := delete (Z.to_nat record_index)
                                    (records_get m (username u))]>
               (financial_records m)) m)).
Proof.
  intros Hu Hr. unfold delete_record. rewrite Hu.
  rewrite (proj2 (index_out_of_range_false _ _) Hr).
  by rewrite (alter_present _ _ _ _ (in_range_stored _ _ _ Hr)).
Qed.

Lemma update_record_rejected record_index d a c t m :
  no_valid_target record_index m →
  update_record record_index d a c t m
  = mkRun tt [Text "Invalid record index."] m.
Proof.
  unfold update_record. intros [Hn|(u & Hu & Hr)].
  - by rewrite Hn.
  - rewrite Hu. apply index_out_of_range_true in Hr. by rewrite Hr.
Qed.

Lemma update_record_accepted record_index d a c t m u :
  current_user m = Some u →
  0 ≤ record_index < Z.of_nat (length (records_get m (username u))) →
  update_record record_index d a c t m
  = mkRun tt [Text "Congrats! Record updated successfully."]
      (save_financial_records
         (set_financial_records
            (<[username u := alter (assign_fields d a c t)
                                   (Z.to_nat record_index)
                                   (records_get m (username u))]>
               (financial_records m)) m)).
Proof.
  intros Hu Hr. unfold update_record. rewrite Hu.
  rewrite (proj2 (index_out_of_range_false _ _) Hr).
  by rewrite (alter_present _ _ _ _ (in_range_stored _ _ _ Hr)).
Qed.
End Guard.

(** C1. With a user logged in and [0 <= record_index < count],
    [delete_record] removes exactly the record at that position: the
    user's list becomes the records before it followed by the records
    after it, so every earlier record keeps its index, every later record
    moves down by one and the count drops by one; the other users' lists
    are untouched and the records file is rewritten from the new store.
    With nobody logged in, or an index outside [0, count) (negative
    included), it prints the invalid-index message and the manager, store
    and files included, is exactly what it was. *)
Theorem delete_record_spec (record_index : Z) (m : FinanceManager) :
  (∀ u, current_user m = Some u →
     0 ≤ record_index < Z.of_nat (length (records_get m (username u))) →
     let i := Z.to_nat record_index in
     let l := records_get m (username u) in
     let r := delete_record record_index m in
     let l' := records_get (after r) (username u) in
     printed r = [Text "Record deleted successfully!!!"]
     ∧ l' = take i l ++ drop (S i) l
     ∧ S (length l') = length l
     ∧ (∀ j, (j < i)%nat → l' !! j = l !! j)
     ∧ (∀ j, (i ≤ j)%nat → l' !! j = l !! S j)
     ∧ (∀ other, other ≠ username u →
          financial_records (after r) !! other = financial_records m !! other)
     ∧ finance_file (after r)
       = Json (records_to_save (financial_records (after r)))
     ∧ users (after r) = users m
     ∧ current_user (after r) = current_user m
     ∧ users_file (after r) = users_file m)
  ∧ (no_valid_target record_index m →
     printed (delete_record record_index m)
     = [Text "Invalid record index. Try Again!"]
     ∧ after (delete_record record_index m) = m).
Proof.
  split.
  - intros u Hu Hr i l r l'. subst r l'.
    rewrite (delete_record_accepted _ _ _ Hu Hr). simpl.
    rewrite records_get_set, lookup_insert_eq. simpl. fold i l.
    pose proof (in_range_lookup _ _ Hr) as Hi. fold i l in Hi.
    repeat split; try done.
    + apply delete_take_drop.
    + rewrite length_delete by done.
      apply lookup_lt_is_Some in Hi. lia.
    + intros j Hj. by apply list_lookup_delete_lt.
    + intros j Hj. by apply list_lookup_delete_ge.
    + intros other Hne. by rewrite lookup_insert_ne.
  - intros Hbad. by rewrite (delete_record_rejected _ _ Hbad).
Qed.

Lemma delete_record_spec_witness :
  records_get (after (delete_record 0 (m_with [rec_salary; rec_lunch])))
              "alice" = [rec_lunch]
  ∧ after (delete_record (-1) (m_with [rec_salary; rec_lunch]))
    = m_with [rec_salary; rec_lunch]
  ∧ after (delete_record 2 (m_with [rec_salary; rec_lunch]))
    = m_with [rec_salary; rec_lunch]
  ∧ after (delete_record 0 m_registered) = m_registered.
Proof.
  assert (Hneg : no_valid_target (-1) (m_with [rec_salary; rec_lunch])).
  { right. exists alice. split; [reflexivity|]. change (¬ (0 ≤ -1 < 2)). lia. }
  assert (Hbig : no_valid_target 2 (m_with [rec_salary; rec_lunch])).
  { right. exists alice. split; [reflexivity|]. change (¬ (0 ≤ 2 < 2)). lia. }
  assert (Hout : no_valid_target 0 m_registered) by (left; reflexivity).
  assert (Hin : 0 ≤ 0 < Z.of_nat (length (records_get
                  (m_with [rec_salary; rec_lunch]) (username alice)))).
  { change (0 ≤ 0 < 2). lia. }
  split; [|split; [|split]].
  - exact (proj1 (proj2 (proj1 (delete_record_spec 0
             (m_with [rec_salary; rec_lunch])) alice eq_refl Hin))).
  - exact (proj2 (proj2 (delete_record_spec (-1) _) Hneg)).
  - exact (proj2 (proj2 (delete_record_spec 2 _) Hbig)).
  - exact (proj2 (proj2 (delete_record_spec 0 _) Hout)).
Defined.

Section Update.
Variable python_int : string → option Z.
Variable python_float : string → option Z.

Lemma assign_fields_fields d a c t (old : FinancialRecord) :
  description (assign_fields d a c t old) = default (description old) d
  ∧ amount (assign_fields d a c t old) = default (amount old) a
  ∧ category (assign_fields d a c t old) = default (category old) c
  ∧ record_type (assign_fields d a c t old) = default (record_type old) t
  ∧ date (assign_fields d a c t old) = date old.
Proof. by destruct d, a, c, t. Qed.

Lemma menu_update_passes index_in d_in a_in c_in t_in m u record_index a :
  current_user m = Some u →
  python_int index_in = Some record_index →
  amount_or_None python_float a_in = Some a →
  after (menu_update python_int python_float index_in d_in a_in c_in t_in m)
  = after (update_record record_index (or_None d_in) a (or_None c_in)
                         (or_None t_in) m).
Proof.
  intros Hu Hi Ha. unfold menu_update. rewrite Hu, Hi, Ha. simpl.
  by rewrite display_records_after.
Qed.

Lemma or_None_blank s : or_None s = None ↔ s = "".
Proof. unfold or_None. by destruct (decide (s = "")). Qed.

Lemma or_None_given s : s ≠ "" → or_None s = Some s.
Proof. intros Hs. unfold or_None. by rewrite decide_False. Qed.

Lemma update_record_in_range record_index d a c t m u :
  current_user m = Some u →
  0 ≤ record_index < Z.of_nat (length (records_get m (username u))) →
  let i := Z.to_nat record_index in
  let l := records_get m (username u) in
  let l' := records_get (after (update_record record_index d a c t m))
                        (username u) in
  ∃ old new,
    l !! i = Some old ∧ l' !! i = Some new
    ∧ new = assign_fields d a c t old
    ∧ length l' = length l
    ∧ (∀ j, j ≠ i → l' !! j = l !! j).
Proof.
  intros Hu Hr i l l'. subst l'.
  rewrite (update_record_accepted _ _ _ _ _ _ _ Hu Hr). simpl.
  rewrite records_get_set, lookup_insert_eq. simpl. fold i l.
  destruct (in_range_lookup _ _ Hr) as [old Hold]. fold i l in Hold.
  exists old, (assign_fields d a c t old).
  split; [done|]. split; [by rewrite list_lookup_alter_eq, Hold|].
  split; [done|]. split; [by rewrite length_alter|].
  intros j Hj. by rewrite list_lookup_alter_ne.
Qed.

(** C3 (amended). With a user logged in and the index in bounds,
    [update_record] replaces the record at that index by the same record
    with exactly the fields overwritten whose argument is not [None],
    an empty string included: a field whose argument is [None] keeps its
    prior value, the date always does, and updating only the
    amount leaves description, category, record_type and date as they
    were.  Every other record of that user and every list of the other
    users is unchanged, and the records file is rewritten from the new
    store.  An out-of-bounds index or a missing session is rejected
    under the same condition as by [delete_record], the manager being
    left unchanged.  Through the menu a field left blank is passed as
    [None]: each text field of the record ends up as the line typed when
    that line is not empty and as it was before otherwise, and a blank
    amount keeps the amount. *)
Theorem update_record_spec (record_index : Z) (d : option string)
    (a : option Z) (c t : option string) (m : FinanceManager) :
  (∀ u, current_user m = Some u →
     0 ≤ record_index < Z.of_nat (length (records_get m (username u))) →
     let i := Z.to_nat record_index in
     let l := records_get m (username u) in
     let r := update_record record_index d a c t m in
     let l' := records_get (after r) (username u) in
     ∃ old new,
       l !! i = Some old ∧ l' !! i = Some new
       ∧ description new = default (description old) d
       ∧ amount new = default (amount old) a
       ∧ category new = default (category old) c
       ∧ record_type new = default (record_type old) t
       ∧ date new = date old
       ∧ (d = None → c = None → t = None →
          new = mkRecord (description old) (default (amount old) a)
                         (category old) (record_type old) (date old))
       ∧ length l' = length l
       ∧ (∀ j, j ≠ i → l' !! j = l !! j)
       ∧ (∀ other, other ≠ username u →
            financial_records (after r) !! other
            = financial_records m !! other)
       ∧ finance_file (after r)
         = Json (records_to_save (financial_records (after r)))
       ∧ users (after r) = users m
       ∧ current_user (after r) = current_user m
       ∧ users_file (after r) = users_file m)
  ∧ (no_valid_target record_index m →
     printed (update_record record_index d a c t m)
     = [Text "Invalid record index."]
     ∧ after (update_record record_index d a c t m) = m
     ∧ after (delete_record record_index m) = m)
  ∧ (∀ index_in d_in a_in c_in t_in u,
     current_user m = Some u →
     python_int index_in = Some record_index →
     amount_or_None python_float a_in = Some a →
     let m' := after (menu_update python_int python_float
                                  index_in d_in a_in c_in t_in m) in
     m' = after (update_record record_index (or_None d_in) a (or_None c_in)
                               (or_None t_in) m)
     ∧ (a_in = "" → a = None)
     ∧ (0 ≤ record_index < Z.of_nat (length (records_get m (username u))) →
        ∃ old new,
          records_get m (username u) !! Z.to_nat record_index = Some old
          ∧ records_get m' (username u) !! Z.to_nat record_index = Some new
          ∧ description new
            = (if decide (d_in = "") then description old else d_in)
          ∧ category new
            = (if decide (c_in = "") then category old else c_in)
          ∧ record_type new
            = (if decide (t_in = "") then record_type old else t_in)
          ∧ amount new = default (amount old) a
          ∧ date new = date old)).
Proof.
  split; [|split].
  - intros u Hu Hr i l r l'. subst r l'.
    destruct (update_record_in_range record_index d a c t m u Hu Hr)
      as (old & new & Hold & Hnew & -> & Hlen & Hrest).
    exists old, (assign_fields d a c t old).
    destruct (assign_fields_fields d a c t old) as (Hd & Ha & Hc & Ht & Hdt).
    split; [done|]. split; [done|]. do 5 (split; [done|]).
    split; [by intros -> -> ->; destruct a, old|].
    split; [done|]. split; [done|].
    rewrite (update_record_accepted _ _ _ _ _ _ _ Hu Hr). simpl.
    split; [by intros other Hne; rewrite lookup_insert_ne|]. done.
  - intros Hbad.
    by rewrite (update_record_rejected _ _ _ _ _ _ Hbad),
               (delete_record_rejected _ _ Hbad).
  - intros index_in d_in a_in c_in t_in u Hu Hi Ha m'. subst m'.
    rewrite (menu_update_passes _ _ _ _ _ _ u _ _ Hu Hi Ha).
    split; [done|]. split.
    + intros ->. unfold amount_or_None in Ha. simpl in Ha. congruence.
    + intros Hr.
      destruct (update_record_in_range record_index (or_None d_in) a
                  (or_None c_in) (or_None t_in) m u Hu Hr)
        as (old & new & Hold & Hnew & -> & _).
      exists old, (assign_fields (or_None d_in) a (or_None c_in)
                                 (or_None t_in) old).
      destruct (assign_fields_fields (or_None d_in) a (or_None c_in)
                  (or_None t_in) old) as (Hd & Ha' & Hc & Ht & Hdt).
      split; [done|]. split; [done|].
      rewrite Hd, Ha', Hc, Ht, Hdt. unfold or_None.
      by repeat case_decide.
Qed.
End Update.

Lemma update_record_spec_witness :
  records_get
    (after (update_record 1 None (Some 45) None None
                          (m_with [rec_salary; rec_lunch]))) "alice"
  !! 1%nat = Some (mkRecord "lunch" 45 "food" "expense" "2024-03-02")
  ∧ after (update_record 2 None (Some 45) None None
                         (m_with [rec_salary; rec_lunch]))
    = m_with [rec_salary; rec_lunch]
  ∧ after (menu_update decimal decimal "1" "" "45" "" ""
                       (m_with [rec_salary; rec_lunch]))
    = after (update_record 1 None (Some 45) None None
                           (m_with [rec_salary; rec_lunch])).
Proof.
  pose proof (update_record_spec decimal decimal 1 None (Some 45) None None
                (m_with [rec_salary; rec_lunch])) as (Hin & _ & Hmenu).
  pose proof (update_record_spec decimal decimal 2 None (Some 45) None None
                (m_with [rec_salary; rec_lunch])) as (_ & Hout & _).
  assert (Hbig : no_valid_target 2 (m_with [rec_salary; rec_lunch])).
  { right. exists alice. split; [reflexivity|]. change (¬ (0 ≤ 2 < 2)). lia. }
  assert (Hr : 0 ≤ 1 < Z.of_nat (length (records_get
                 (m_with [rec_salary; rec_lunch]) (username alice)))).
  { change (0 ≤ 1 < 2). lia. }
  split; [|split].
  - destruct (Hin alice eq_refl Hr)
      as (old & new & Hold & Hnew & _ & _ & _ & _ & _ & Honly & _).
    etransitivity; [exact Hnew|]. f_equal.
    rewrite (Honly eq_refl eq_refl eq_refl).
    change (Some rec_lunch = Some old) in Hold.
    injection Hold as <-. reflexivity.
  - exact (proj1 (proj2 (Hout Hbig))).
  - exact (proj1 (Hmenu "1" "" "45" "" "" alice eq_refl eq_refl eq_refl)).
Defined.

(** C3, as stated, fails: [update_record] tests [is not None], so an empty
    string passed for the description is not left out but overwrites the
    description with the empty string. *)
Lemma update_record_empty_string_counterexample :
  current_user (m_with [rec_salary]) = Some alice
  ∧ records_get (m_with [rec_salary]) "alice" !! 0%nat = Some rec_salary
  ∧ description rec_salary = "salary"
  ∧ records_get
      (after (update_record 0 (Some "") None None None (m_with [rec_salary])))
      "alice"
    = [mkRecord "" 100 "job" "income" "2024-03-01"]
  ∧ ¬ (∀ old new,
         records_get (m_with [rec_salary]) "alice" !! 0%nat = Some old →
         records_get
           (after (update_record 0 (Some "") None None None
                                 (m_with [rec_salary])))
           "alice" !! 0%nat = Some new →
         description new = description old).
Proof.
  split; [reflexivity|]. split; [reflexivity|]. split; [reflexivity|].
  split; [reflexivity|].
  intros Hkeep.
  specialize (Hkeep rec_salary (mkRecord "" 100 "job" "income" "2024-03-01")
                    eq_refl eq_refl).
  discriminate Hkeep.
Qed.

(** ** The report engine *)

Section Totals.
Implicit Types (l : list FinancialRecord) (m : FinanceManager).

Lemma foldl_add_shift (xs : list Z) (acc : Z) :
  foldl Z.add acc xs = acc + py_sum xs.
Proof.
  unfold py_sum. revert acc. induction xs as [|x xs IH]; intros acc; simpl.
  - lia.
  - rewrite (IH (acc + x)), (IH (0 + x)). lia.
Qed.

Lemma py_sum_cons (x : Z) (xs : list Z) : py_sum (x :: xs) = x + py_sum xs.
Proof. unfold py_sum at 1. simpl. by rewrite foldl_add_shift. Qed.

Lemma sum_amounts_total_of ty l : sum_amounts ty l = total_of ty l.
Proof.
  unfold sum_amounts. induction l as [|r l IH]; [done|].
  rewrite filter_cons. simpl. destruct (decide (record_type r = ty)).
  - rewrite fmap_cons, py_sum_cons. by rewrite IH.
  - by rewrite IH.
Qed.

Lemma calculate_totals_logged_in m u :
  current_user m = Some u →
  calculate_totals m
  = mkRun (Some (total_of "income" (records_get m (username u))),
           Some (total_of "expense" (records_get m (username u)))) [] m.
Proof.
  intros Hu. unfold calculate_totals. rewrite Hu.
  by rewrite !sum_amounts_total_of.
Qed.

Lemma calculate_savings_logged_in m u :
  current_user m = Some u →
  calculate_savings m
  = mkRun (Some (total_of "income" (records_get m (username u))
                 - total_of "expense" (records_get m (username u)))) [] m.
Proof.
  intros Hu. unfold calculate_savings. rewrite Hu.
  by rewrite !sum_amounts_total_of.
Qed.
End Totals.

(** C2. For a logged-in user [calculate_totals] returns the pair made of
    the sum of the amounts of the user's records whose record_type is
    'income' and the sum for record_type 'expense', and
    [calculate_savings] returns exactly the first minus the second.  Both
    are zero when the user has no records, neither call changes the
    manager, and on the records [{100, income}, {30, expense}] the totals
    are (100, 30) and the savings 70. *)
Theorem totals_and_savings_spec (m : FinanceManager) (u : User)
    (Hu : current_user m = Some u) :
  let records := records_get m (username u) in
  ret (calculate_totals m)
  = (Some (total_of "income" records), Some (total_of "expense" records))
  ∧ ret (calculate_savings m)
    = Some (total_of "income" records - total_of "expense" records)
  ∧ (∀ total_income total_expense,
       ret (calculate_totals m) = (Some total_income, Some total_expense) →
       ret (calculate_savings m) = Some (total_income - total_expense))
  ∧ (records = [] →
     ret (calculate_totals m) = (Some 0, Some 0)
     ∧ ret (calculate_savings m) = Some 0)
  ∧ after (calculate_totals m) = m
  ∧ after (calculate_savings m) = m
  ∧ ret (calculate_totals (m_with [rec_salary; rec_lunch]))
    = (Some 100, Some 30)
  ∧ ret (calculate_savings (m_with [rec_salary; rec_lunch])) = Some 70.
Proof.
  intros records. subst records.
  rewrite (calculate_totals_logged_in _ _ Hu),
          (calculate_savings_logged_in _ _ Hu). simpl.
  split; [done|]. split; [done|].
  split; [by intros ti te [= <- <-]|].
  split; [by intros ->|]. done.
Qed.

Lemma totals_and_savings_spec_witness :
  current_user (m_with [rec_lunch; rec_salary; rec_lunch]) = Some alice
  ∧ ret (calculate_totals (m_with [rec_lunch; rec_salary; rec_lunch]))
    = (Some 100, Some 60)
  ∧ ret (calculate_savings (m_with [rec_lunch; rec_salary; rec_lunch]))
    = Some 40.
Proof.
  split; [reflexivity|].
  pose proof (totals_and_savings_spec
                (m_with [rec_lunch; rec_salary; rec_lunch]) alice eq_refl)
    as (Ht & Hs & _).
  split; [exact Ht | exact Hs].
Defined.

(** C10. With nobody logged in, [calculate_totals] returns the pair
    [(None, None)] and [calculate_savings] returns [None]; these are not
    the numeric zeros, and no call made with a user logged in returns
    them, whatever that user's records: each sentinel is returned exactly
    when nobody is logged in. *)
Theorem not_logged_in_sentinels (m : FinanceManager)
    (Hnone : current_user m = None) :
  ret (calculate_totals m) = (None, None)
  ∧ ret (calculate_savings m) = None
  ∧ ret (calculate_totals m) ≠ (Some 0, Some 0)
  ∧ ret (calculate_savings m) ≠ Some 0
  ∧ (∀ m', ret (calculate_totals m') = (None, None) ↔ current_user m' = None)
  ∧ (∀ m', ret (calculate_savings m') = None ↔ current_user m' = None)
  ∧ after (calculate_totals m) = m
  ∧ after (calculate_savings m) = m.
Proof.
  unfold calculate_totals, calculate_savings. rewrite Hnone. simpl.
  repeat split; try done.
  - by destruct (current_user m').
  - intros ->. done.
  - by destruct (current_user m').
  - intros ->. done.
Qed.

Lemma not_logged_in_sentinels_witness :
  current_user m_registered = None
  ∧ ret (calculate_totals m_registered) = (None, None)
  ∧ ret (calculate_savings m_registered) = None
  ∧ ret (calculate_totals m_logged_in) = (Some 0, Some 0)
  ∧ ret (calculate_savings m_logged_in) = Some 0.
Proof.
  split; [reflexivity|].
  destruct (not_logged_in_sentinels m_registered eq_refl) as (Ht & Hs & _).
  split; [exact Ht|]. split; [exact Hs|]. split; reflexivity.
Defined.

(** *** The integer types of a column *)

Lemma dtype_wrap_add_l (d : Dtype) (a b : Z) :
  dtype_wrap d (dtype_wrap d a + b) = dtype_wrap d (a + b).
Proof.
  destruct d; simpl; [| |done].
  - f_equal.
    replace ((a + 2 ^ 63) `mod` 2 ^ 64 - 2 ^ 63 + b + 2 ^ 63)
      with ((a + 2 ^ 63) `mod` 2 ^ 64 + b) by lia.
    rewrite Zplus_mod_idemp_l. f_equal. lia.
  - by rewrite Zplus_mod_idemp_l.
Qed.

Lemma dtype_wrap_int64 (v : Z) :
  - 2 ^ 63 ≤ v < 2 ^ 63 → dtype_wrap Int64 v = v.
Proof. intros Hv. simpl. rewrite Z.mod_small by lia. lia. Qed.

Lemma dtype_wrap_uint64 (v : Z) :
  0 ≤ v < 2 ^ 64 → dtype_wrap UInt64 v = v.
Proof. intros Hv. simpl. by rewrite Z.mod_small by lia. Qed.

Lemma in_int64_spec (v : Z) : in_int64 v = true ↔ - 2 ^ 63 ≤ v < 2 ^ 63.
Proof. unfold in_int64. rewrite andb_true_iff, Z.leb_le, Z.ltb_lt. done. Qed.

Lemma in_uint64_spec (v : Z) : in_uint64 v = true ↔ 0 ≤ v < 2 ^ 64.
Proof. unfold in_uint64. rewrite andb_true_iff, Z.leb_le, Z.ltb_lt. done. Qed.

(** Every value of a column fits the type inferred for the column. *)
Lemma infer_dtype_fits (column : list Z) (v : Z) :
  v ∈ column → dtype_wrap (infer_dtype column) v = v.
Proof.
  intros Hin. apply list_elem_of_In in Hin. unfold infer_dtype.
  destruct (forallb in_int64 column) eqn:Hi.
  - apply dtype_wrap_int64, in_int64_spec.
    by apply (proj1 (forallb_forall _ _) Hi).
  - destruct (forallb in_uint64 column) eqn:Hu; [|done].
    apply dtype_wrap_uint64, in_uint64_spec.
    by apply (proj1 (forallb_forall _ _) Hu).
Qed.

Lemma infer_dtype_int64 (column : list Z) :
  Forall (λ v, - 2 ^ 63 ≤ v < 2 ^ 63) column → infer_dtype column = Int64.
Proof.
  intros Hall. unfold infer_dtype.
  rewrite (proj2 (forallb_forall in_int64 column)); [done|].
  intros v Hv. apply in_int64_spec.
  apply (proj1 (Forall_forall _ _) Hall). by apply list_elem_of_In.
Qed.

(** *** Grouping and summing *)

Section GroupByFacts.
Context {K : Type} `{EqDecision K} (cmp : K → K → comparison).
Hypothesis cmp_eq : ∀ a b, cmp a b = Eq ↔ a = b.
Hypothesis cmp_antisym : ∀ a b, cmp a b = CompOpp (cmp b a).
Hypothesis cmp_trans : ∀ a b c, cmp a b = Lt → cmp b c = Lt → cmp a c = Lt.

Implicit Types (k j : K) (v : Z) (groups rows : list (K * Z)).
Implicit Types (add : Z → Z → Z) (d : Dtype).

Lemma cmp_refl k : cmp k k = Eq.
Proof. by apply cmp_eq. Qed.

Lemma cmp_gt_lt a b : cmp a b = Gt → cmp b a = Lt.
Proof. intros H. rewrite cmp_antisym, H. done. Qed.

Lemma cmp_lt_ne a b : cmp a b = Lt → a ≠ b.
Proof. intros H ->. rewrite cmp_refl in H. done. Qed.

Lemma group_get_below k groups :
  Forall (λ x, cmp k x.1 = Lt) groups → group_get cmp k groups = None.
Proof.
  induction 1 as [|[k' v'] rest Hk _ IH]; [done|].
  simpl in *. by rewrite Hk.
Qed.

Lemma group_add_Forall add (P : K → Prop) k v groups :
  P k → Forall (λ x, P x.1) groups →
  Forall (λ x, P x.1) (group_add add cmp k v groups).
Proof.
  intros Hk. induction 1 as [|[k' v'] rest Hk' Hrest IH]; simpl.
  - by repeat constructor.
  - destruct (cmp k k'); repeat constructor; done.
Qed.

Lemma group_add_ascending add k v groups :
  ascending cmp groups → ascending cmp (group_add add cmp k v groups).
Proof.
  unfold ascending.
  induction 1 as [|[k' v'] rest Hrest IH Hall]; simpl.
  - repeat constructor.
  - destruct (cmp k k') eqn:Hc.
    + by constructor.
    + constructor; [by constructor|].
      constructor; [done|].
      eapply Forall_impl; [exact Hall|].
      intros [k2 v2] H2. simpl in *. by eapply cmp_trans.
    + constructor; [done|].
      apply (group_add_Forall add (λ x, cmp k' x = Lt)); [|done].
      by apply cmp_gt_lt.
Qed.

Lemma group_get_add j k v groups :
  ascending cmp groups →
  group_get cmp j (group_add Z.add cmp k v groups)
  = match cmp j k with
    | Eq => Some (default 0 (group_get cmp k groups) + v)
    | _ => group_get cmp j groups
    end.
Proof.
  unfold ascending.
  induction 1 as [|[k' v'] rest Hrest IH Hall]; simpl.
  - by destruct (cmp j k).
  - destruct (cmp k k') eqn:Hc; simpl.
    + apply cmp_eq in Hc as <-. by destruct (cmp j k).
    + destruct (cmp j k) eqn:Hj; [|done..].
      f_equal. rewrite group_get_below; [simpl; lia|].
      eapply Forall_impl; [exact Hall|].
      intros [k2 v2] H2. simpl in *. by eapply cmp_trans.
    + rewrite IH. destruct (cmp j k') eqn:Hj'; [|done..].
      apply cmp_eq in Hj' as ->. by rewrite (cmp_gt_lt _ _ Hc).
Qed.

Lemma groupby_sum_snoc add rows k v :
  groupby_sum add cmp (rows ++ [(k, v)])
  = group_add add cmp k v (groupby_sum add cmp rows).
Proof. unfold groupby_sum. by rewrite foldl_snoc. Qed.

Lemma groupby_sum_ascending add rows :
  ascending cmp (groupby_sum add cmp rows).
Proof.
  induction rows as [|[k v] rows IH] using rev_ind.
  - constructor.
  - rewrite groupby_sum_snoc. by apply group_add_ascending.
Qed.

Lemma key_total_app j rows1 rows2 :
  key_total j (rows1 ++ rows2) = key_total j rows1 + key_total j rows2.
Proof.
  induction rows1 as [|[k v] rows1 IH]; simpl; [done|]. rewrite IH. lia.
Qed.

Lemma key_total_absent j rows : j ∉ rows.*1 → key_total j rows = 0.
Proof.
  induction rows as [|[k v] rows IH]; simpl; [done|].
  rewrite not_elem_of_cons. intros [Hne Hnot].
  rewrite IH by done. case_decide; [congruence|done].
Qed.

(** With sums that never wrap, the frame lists a key exactly when a data
    row carries it, and the sum listed is the sum of the values of those
    rows. *)
Lemma groupby_sum_get rows j :
  group_get cmp j (groupby_sum Z.add cmp rows)
  = if decide (j ∈ rows.*1) then Some (key_total j rows) else None.
Proof.
  induction rows as [|[k v] rows IH] using rev_ind.
  - rewrite decide_False by apply not_elem_of_nil. done.
  - rewrite groupby_sum_snoc, group_get_add by apply groupby_sum_ascending.
    rewrite fmap_app, key_total_app. simpl.
    destruct (cmp j k) eqn:Hj.
    + apply cmp_eq in Hj as ->.
      rewrite (decide_True (P := k = k)) by done.
      rewrite decide_True by (rewrite elem_of_app, list_elem_of_singleton; auto).
      rewrite IH. f_equal. destruct (decide (k ∈ rows.*1)) as [Hin|Hnot]; simpl.
      * lia.
      * rewrite key_total_absent by done. lia.
    + assert (k ≠ j) by (intros ->; by rewrite cmp_refl in Hj).
      rewrite (decide_False (P := k = j)) by done. rewrite IH.
      destruct (decide (j ∈ rows.*1)) as [Hin|Hnot].
      * rewrite decide_True by (rewrite elem_of_app; auto). f_equal. lia.
      * rewrite decide_False; [done|].
        rewrite elem_of_app, list_elem_of_singleton.
        intros [?|?]; [done|congruence].
    + assert (k ≠ j) by (intros ->; by rewrite cmp_refl in Hj).
      rewrite (decide_False (P := k = j)) by done. rewrite IH.
      destruct (decide (j ∈ rows.*1)) as [Hin|Hnot].
      * rewrite decide_True by (rewrite elem_of_app; auto). f_equal. lia.
      * rewrite decide_False; [done|].
        rewrite elem_of_app, list_elem_of_singleton.
        intros [?|?]; [done|congruence].
Qed.

(** In an ascending frame a key has one row at most, so membership of a
    row and reading the key agree. *)
Lemma ascending_elem_of k v groups :
  ascending cmp groups → (k, v) ∈ groups ↔ group_get cmp k groups = Some v.
Proof.
  unfold ascending.
  induction 1 as [|[k' v'] rest Hrest IH Hall]; simpl.
  - split; [by intros ?%elem_of_nil | done].
  - rewrite elem_of_cons, IH. split.
    + intros [[= -> ->]|Hget].
      * by rewrite cmp_refl.
      * destruct (cmp k k') eqn:Hc; [|done..].
        apply cmp_eq in Hc as ->.
        rewrite group_get_below in Hget; [done|].
        eapply Forall_impl; [exact Hall|]. by intros [??].
    + destruct (cmp k k') eqn:Hc; [|by right..].
      apply cmp_eq in Hc as ->. intros [= ->]. by left.
Qed.

(** Summing in the type of the column gives, row by row, the exact sums
    as that type holds them. *)
Lemma group_add_wrap d k v groups :
  dtype_wrap d v = v →
  group_add (dtype_add d) cmp k v (wrap_rows d groups)
  = wrap_rows d (group_add Z.add cmp k v groups).
Proof.
  intros Hv. unfold wrap_rows.
  induction groups as [|[k' v'] rest IH]; simpl.
  - by rewrite Hv.
  - destruct (cmp k k'); simpl.
    + unfold dtype_add. by rewrite dtype_wrap_add_l.
    + by rewrite Hv.
    + f_equal. exact IH.
Qed.

Lemma groupby_sum_wrap d rows :
  Forall (λ kv, dtype_wrap d kv.2 = kv.2) rows →
  groupby_sum (dtype_add d) cmp rows
  = wrap_rows d (groupby_sum Z.add cmp rows).
Proof.
  induction rows as [|[k v] rows IH] using rev_ind; intros Hfit; [done|].
  apply Forall_app in Hfit as [Hrows Hkv].
  apply Forall_cons in Hkv as [Hv _]. simpl in Hv.
  rewrite !groupby_sum_snoc, IH by done. by apply group_add_wrap.
Qed.

Lemma groupby_sum_elem_of d rows k v :
  Forall (λ kv, dtype_wrap d kv.2 = kv.2) rows →
  (k, v) ∈ groupby_sum (dtype_add d) cmp rows
  ↔ k ∈ rows.*1 ∧ v = dtype_wrap d (key_total k rows).
Proof.
  intros Hfit. rewrite (groupby_sum_wrap d rows Hfit). unfold wrap_rows.
  rewrite list_elem_of_fmap. split.
  - intros ([k0 v0] & [= -> ->] & Hin).
    apply ascending_elem_of in Hin; [|apply groupby_sum_ascending].
    rewrite groupby_sum_get in Hin. case_decide; [|done].
    injection Hin as <-. done.
  - intros [Hin ->]. exists (k, key_total k rows). split; [done|].
    apply ascending_elem_of; [apply groupby_sum_ascending|].
    rewrite groupby_sum_get. by rewrite decide_True.
Qed.
End GroupByFacts.

(** *** The spending distribution *)

Lemma string_compare_eq (a b : string) : String.compare a b = Eq ↔ a = b.
Proof. apply String_as_OT.cmp_eq. Qed.

Lemma string_compare_trans (a b c : string) :
  String.compare a b = Lt → String.compare b c = Lt → String.compare a c = Lt.
Proof.
  intros Hab Hbc. apply String_as_OT.cmp_lt.
  eapply String_as_OT.lt_trans; by apply String_as_OT.cmp_lt.
Qed.

Lemma expense_rows_cons (r : FinancialRecord) (records : list FinancialRecord) :
  expense_rows (r :: records)
  = if decide (record_type r = "expense")
    then (category r, amount r) :: expense_rows records
    else expense_rows records.
Proof.
  unfold expense_rows. rewrite filter_cons. by case_decide.
Qed.

Lemma expense_rows_keys (c : string) (records : list FinancialRecord) :
  c ∈ (expense_rows records).*1 ↔ spends_on c records.
Proof.
  unfold spends_on. induction records as [|r records IH].
  - split; [by intros ?%elem_of_nil|]. by intros (? & ?%elem_of_nil & _).
  - rewrite expense_rows_cons. case_decide as Ht.
    + rewrite fmap_cons, elem_of_cons, IH. simpl. split.
      * intros [->|(r' & Hin & Hr')].
        -- exists r. split; [by left|done].
        -- exists r'. split; [by right|done].
      * intros (r' & [->|Hin]%elem_of_cons & Hty & Hc); [by left|].
        right. by exists r'.
    + rewrite IH. split.
      * intros (r' & Hin & Hr'). exists r'. split; [by right|done].
      * intros (r' & [->|Hin]%elem_of_cons & Hty & Hc); [done|].
        by exists r'.
Qed.

Lemma expense_rows_total (c : string) (records : list FinancialRecord) :
  key_total c (expense_rows records) = category_total c records.
Proof.
  induction records as [|r records IH]; [done|].
  rewrite expense_rows_cons. simpl. rewrite <- IH.
  destruct (decide (record_type r = "expense")) as [Ht|Ht]; simpl.
  - destruct (decide (category r = c)) as [Hc|Hc].
    + by rewrite decide_True.
    + rewrite decide_False; [done|]. by intros [_ ?].
  - rewrite decide_False; [done|]. by intros [? _].
Qed.

Lemma expense_rows_nil (records : list FinancialRecord) :
  expense_rows records = []
  ↔ Forall (λ r, record_type r ≠ "expense") records.
Proof.
  induction records as [|r records IH].
  - split; [constructor|done].
  - rewrite expense_rows_cons, Forall_cons, <- IH.
    case_decide as Ht; split.
    + done.
    + by intros [? _].
    + by intros ?.
    + by intros [_ ?].
Qed.

Lemma expense_rows_fit (records : list FinancialRecord) :
  Forall (λ kv, dtype_wrap (infer_dtype (amount <$> records)) kv.2 = kv.2)
         (expense_rows records).
Proof.
  apply Forall_forall. intros [c v] Hin. simpl.
  apply infer_dtype_fits. unfold expense_rows in Hin.
  apply list_elem_of_fmap in Hin as (r & [= -> ->] & Hr).
  apply list_elem_of_fmap. exists r. split; [done|].
  by apply list_elem_of_filter in Hr as [_ Hr].
Qed.

Lemma spending_frame_ascending (add : Z → Z → Z) (rows : list SpendingRow) :
  ascending String.compare (groupby_sum add String.compare rows).
Proof.
  apply groupby_sum_ascending.
  - apply String.compare_antisym.
  - apply string_compare_trans.
Qed.

Lemma spending_frame_elem_of (d : Dtype) (rows : list SpendingRow)
    (c : string) (v : Z) :
  Forall (λ kv, dtype_wrap d kv.2 = kv.2) rows →
  (c, v) ∈ groupby_sum (dtype_add d) String.compare rows
  ↔ c ∈ rows.*1 ∧ v = dtype_wrap d (key_total c rows).
Proof.
  apply (groupby_sum_elem_of String.compare string_compare_eq
           String.compare_antisym string_compare_trans).
Qed.

Section Spending.
Context {Timestamp : Type}.
Variable to_datetime : list string → option (list Timestamp).

Lemma view_spending_distribution_parsed (m : FinanceManager) (u : User) :
  current_user m = Some u →
  records_get m (username u) ≠ [] →
  is_Some (to_datetime (date <$> records_get m (username u))) →
  view_spending_distribution to_datetime m
  = match expense_rows (records_get m (username u)) with
    | [] => Returned (mkRun tt [Text "No expenses recorded."] m)
    | expense_df =>
        Returned
          (mkRun tt
             [Text (nl +:+ "Spending Distribution by Category:");
              SpendingFrame
                (groupby_sum
                   (dtype_add
                      (infer_dtype (amount <$> records_get m (username u))))
                   String.compare expense_df)] m)
    end.
Proof.
  unfold view_spending_distribution, records_get. intros -> Hne [ts Hts].
  destruct (financial_records m !! username u) as [[|r l]|]; [done| |done].
  simpl in *. by rewrite Hts.
Qed.

(** C7 (amended). For a logged-in user whose dates parse and who has at
    least one record of record_type 'expense', [view_spending_distribution]
    prints one frame: a row per category that has an expense, in ascending
    category order, carrying the sum of the amounts of that user's expense
    records of that category as the integer type of the amount column
    holds it, which is the exact sum whenever every amount of the user and
    the sum itself lie between -2^63 and 2^63 - 1; so expenses food:20,
    food:10, rent:50 give food:30, rent:50.  When the user has records but
    none is an expense it prints "No expenses recorded." and no frame; when
    the user has no records it prints that none are available. *)
Theorem view_spending_distribution_spec (m : FinanceManager) (u : User)
    (Hu : current_user m = Some u) :
  let records := records_get m (username u) in
  let dtype := infer_dtype (amount <$> records) in
  (is_Some (to_datetime (date <$> records)) →
   Exists (λ r, record_type r = "expense") records →
   ∃ dist,
     view_spending_distribution to_datetime m
     = Returned
         (mkRun tt [Text (nl +:+ "Spending Distribution by Category:");
                    SpendingFrame dist] m)
     ∧ ascending String.compare dist
     ∧ (∀ c v, (c, v) ∈ dist
               ↔ spends_on c records
                 ∧ v = dtype_wrap dtype (category_total c records))
     ∧ (Forall (λ r, - 2 ^ 63 ≤ amount r < 2 ^ 63) records →
        ∀ c, spends_on c records →
             - 2 ^ 63 ≤ category_total c records < 2 ^ 63 →
             (c, category_total c records) ∈ dist))
  ∧ (records ≠ [] → is_Some (to_datetime (date <$> records)) →
     Forall (λ r, record_type r ≠ "expense") records →
     view_spending_distribution to_datetime m
     = Returned (mkRun tt [Text "No expenses recorded."] m))
  ∧ (records = [] →
     view_spending_distribution to_datetime m
     = Returned
         (mkRun tt
            [Text "No records available to calculate spending distribution."]
            m))
  ∧ view_spending_distribution iso_dates
      (m_with [rec_groceries; rec_snack; rec_flat])
    = Returned
        (mkRun tt [Text (nl +:+ "Spending Distribution by Category:");
                   SpendingFrame [("food", 30); ("rent", 50)]]
               (m_with [rec_groceries; rec_snack; rec_flat])).
Proof.
  intros records dtype. split; [|split; [|split]].
  - intros Hts Hex.
    assert (Hne : records ≠ []) by (intros Hnil; rewrite Hnil in Hex; inversion Hex).
    assert (Hrows : expense_rows records ≠ []).
    { rewrite expense_rows_nil. intros Hall.
      apply Exists_exists in Hex as (r & Hin & Hr).
      by apply (proj1 (Forall_forall _ _) Hall r Hin). }
    assert (Helem : ∀ c v,
      (c, v) ∈ groupby_sum (dtype_add dtype) String.compare
                           (expense_rows records)
      ↔ spends_on c records
        ∧ v = dtype_wrap dtype (category_total c records)).
    { intros c v.
      by rewrite (spending_frame_elem_of dtype _ c v (expense_rows_fit records)),
                 expense_rows_keys, expense_rows_total. }
    exists (groupby_sum (dtype_add dtype) String.compare (expense_rows records)).
    split; [|split; [|split]].
    + rewrite (view_spending_distribution_parsed m u Hu Hne Hts).
      fold records dtype. by destruct (expense_rows records).
    + apply spending_frame_ascending.
    + exact Helem.
    + intros Hall c Hc Hsum. apply Helem. split; [done|].
      unfold dtype. rewrite infer_dtype_int64.
      * by rewrite dtype_wrap_int64.
      * apply Forall_fmap. exact Hall.
  - intros Hne Hts Hall.
    rewrite (view_spending_distribution_parsed m u Hu Hne Hts).
    fold records. by rewrite (proj2 (expense_rows_nil records) Hall).
  - unfold records, records_get, view_spending_distribution. rewrite Hu.
    by destruct (financial_records m !! username u) as [[|]|].
  - reflexivity.
Qed.
End Spending.

Lemma view_spending_distribution_spec_witness :
  ∃ dist,
    view_spending_distribution iso_dates
      (m_with [rec_salary; rec_groceries; rec_snack; rec_flat])
    = Returned
        (mkRun tt [Text (nl +:+ "Spending Distribution by Category:");
                   SpendingFrame dist]
               (m_with [rec_salary; rec_groceries; rec_snack; rec_flat]))
    ∧ ("food", 30) ∈ dist ∧ ("rent", 50) ∈ dist.
Proof.
  pose (records := [rec_salary; rec_groceries; rec_snack; rec_flat]).
  destruct (view_spending_distribution_spec iso_dates (m_with records) alice
              eq_refl) as (Hframe & _).
  destruct Hframe as (dist & Hview & _ & Hrows & _).
  - change (is_Some (iso_dates (date <$> records))).
    eexists. vm_compute. reflexivity.
  - change (Exists (λ r, record_type r = "expense") records).
    apply Exists_cons_tl, Exists_cons_hd. reflexivity.
  - change (records_get (m_with records) (username alice)) with records in Hrows.
    exists dist. split; [exact Hview|]. split; apply Hrows.
    + split; [|vm_compute; reflexivity]. exists rec_groceries.
      split; [|done]. apply list_elem_of_further, list_elem_of_here.
    + split; [|vm_compute; reflexivity]. exists rec_flat.
      split; [|done]. do 3 apply list_elem_of_further. apply list_elem_of_here.
Defined.

(** C7, as stated, fails: a logged-in user whose only record is an income
    has no expense record, and the call prints "No expenses recorded."
    instead of yielding an empty distribution. *)
Lemma view_spending_distribution_no_expense_counterexample :
  current_user (m_with [rec_salary]) = Some alice
  ∧ Forall (λ r, record_type r ≠ "expense")
           (records_get (m_with [rec_salary]) "alice")
  ∧ view_spending_distribution iso_dates (m_with [rec_salary])
    = Returned (mkRun tt [Text "No expenses recorded."] (m_with [rec_salary]))
  ∧ ¬ ∃ r, view_spending_distribution iso_dates (m_with [rec_salary])
           = Returned r
           ∧ SpendingFrame [] ∈ printed r.
Proof.
  split; [reflexivity|]. split; [|split].
  - change (Forall (λ r, record_type r ≠ "expense") [rec_salary]).
    by repeat constructor.
  - reflexivity.
  - intros (r & Hr & Hin).
    change (Returned (mkRun tt [Text "No expenses recorded."]
                            (m_with [rec_salary])) = Returned r) in Hr.
    injection Hr as <-. simpl in Hin.
    apply list_elem_of_singleton in Hin. discriminate.
Qed.

(** *** The period report *)

Section Report.
Context {Timestamp : Type}.
Variable to_datetime : list string → option (list Timestamp).
Variable to_period_M : Timestamp → Z.
Variable to_period_W : Timestamp → Z.

Lemma generate_report_after (period : string) (m : FinanceManager)
    (r : Run (option (list ReportRow))) :
  generate_report to_datetime to_period_M to_period_W period m = Returned r →
  after r = m.
Proof.
  unfold generate_report.
  destruct (current_user m) as [u|]; [|by intros [= <-]].
  destruct (financial_records m !! username u) as [[|r0 l]|];
    [by intros [= <-]| |by intros [= <-]].
  destruct (to_datetime _); [|done].
  repeat case_decide; by intros [= <-].
Qed.

(** C9 (amended). For a logged-in user who has at least one record, the
    dates of which parse, a period other than 'monthly' and 'weekly' makes
    [generate_report] print "Invalid period specified." and return [None],
    no report being produced.  For a logged-in user without records the
    call prints that no records are available and returns [None] whatever
    the period.  No call to [generate_report] that returns changes the
    manager. *)
Theorem generate_report_spec (period : string) (m : FinanceManager)
    (u : User) (Hu : current_user m = Some u) :
  let records := records_get m (username u) in
  (period ≠ "monthly" → period ≠ "weekly" →
   records ≠ [] → is_Some (to_datetime (date <$> records)) →
   generate_report to_datetime to_period_M to_period_W period m
   = Returned (mkRun None [Text "Invalid period specified."] m))
  ∧ (records = [] →
     generate_report to_datetime to_period_M to_period_W period m
     = Returned
         (mkRun None [Text "No records available for generating reports."] m))
  ∧ (∀ r,
     generate_report to_datetime to_period_M to_period_W period m = Returned r →
     after r = m).
Proof.
  intros records. split; [|split].
  - intros Hm Hw Hne [ts Hts]. revert Hne Hts.
    unfold records, records_get, generate_report. rewrite Hu.
    destruct (financial_records m !! username u) as [[|r0 l]|];
      [done| |done].
    simpl. intros _ ->. by rewrite !decide_False.
  - unfold records, records_get, generate_report. rewrite Hu.
    by destruct (financial_records m !! username u) as [[|r0 l]|].
  - apply generate_report_after.
Qed.
End Report.

Lemma generate_report_spec_witness :
  generate_report iso_dates month_ordinal week_ordinal "yearly"
                  (m_with [rec_salary; rec_lunch])
  = Returned (mkRun None [Text "Invalid period specified."]
                    (m_with [rec_salary; rec_lunch])).
Proof.
  apply (generate_report_spec iso_dates month_ordinal week_ordinal "yearly"
           (m_with [rec_salary; rec_lunch]) alice eq_refl).
  - discriminate.
  - discriminate.
  - change ([rec_salary; rec_lunch] ≠ []). discriminate.
  - change (is_Some (iso_dates (date <$> [rec_salary; rec_lunch]))).
    eexists. vm_compute. reflexivity.
Defined.

(** C9, as stated, fails: for a logged-in user without records an invalid
    period is answered by the no-records message, not by the invalid-period
    one. *)
Lemma generate_report_no_records_counterexample :
  current_user m_logged_in = Some alice
  ∧ "yearly" ≠ "monthly" ∧ "yearly" ≠ "weekly"
  ∧ generate_report iso_dates month_ordinal week_ordinal "yearly" m_logged_in
    = Returned
        (mkRun None [Text "No records available for generating reports."]
               m_logged_in)
  ∧ ¬ ∃ r, generate_report iso_dates month_ordinal week_ordinal "yearly"
                           m_logged_in = Returned r
           ∧ Text "Invalid period specified." ∈ printed r.
Proof.
  split; [reflexivity|]. split; [discriminate|]. split; [discriminate|].
  split; [reflexivity|].
  intros (r & Hr & Hin).
  change (Returned (mkRun None
            [Text "No records available for generating reports."]
            m_logged_in) = Returned r) in Hr.
  injection Hr as <-. simpl in Hin.
  apply list_elem_of_singleton in Hin. discriminate.
Qed.

(** ** Persistence *)

Section RoundTrip.
Implicit Types (fr acc : gmap string (list FinancialRecord)).
Implicit Types (l : list FinancialRecord) (m : FinanceManager).
Implicit Types (kvs : list (string * list FinancialRecord)).

Lemma load_row_to_row now acc k (r : FinancialRecord) :
  date r ≠ "" →
  load_row now acc (to_row k r) = <[k := default [] (acc !! k) ++ [r]]> acc.
Proof.
  intros Hd. unfold load_row, FinancialRecord_init, date_or. simpl.
  rewrite decide_False by done. destruct r. simpl. apply store_append.
Qed.

Lemma load_block now acc k l :
  dated l →
  foldl (load_row now) acc (to_row k <$> l)
  = match l with
    | [] => acc
    | _ => <[k := default [] (acc !! k) ++ l]> acc
    end.
Proof.
  intros Hl. revert acc.
  induction Hl as [|r l Hr Hl IH]; intros acc; [done|].
  rewrite fmap_cons. simpl. rewrite load_row_to_row by done.
  rewrite IH. destruct l as [|r' l]; [done|].
  rewrite lookup_insert_eq, insert_insert_eq. simpl.
  by rewrite <- app_assoc.
Qed.

Lemma load_blocks now kvs acc :
  NoDup kvs.*1 →
  Forall (λ kv, dated kv.2) kvs →
  (∀ k, k ∈ kvs.*1 → acc !! k = None) →
  ∀ j, foldl (load_row now) acc (flat_map (λ kv, to_row kv.1 <$> kv.2) kvs) !! j
       = match (list_to_map kvs : gmap string (list FinancialRecord)) !! j with
         | Some (x :: l) => Some (x :: l)
         | _ => acc !! j
         end.
Proof.
  revert acc. induction kvs as [|[k l] kvs IH]; intros acc Hnd Hd Hfresh j.
  - simpl. by rewrite lookup_empty.
  - rewrite fmap_cons, NoDup_cons in Hnd. destruct Hnd as [Hk Hnd].
    apply Forall_cons in Hd as [Hl Hd]. simpl in Hk, Hl.
    assert (Hacc : acc !! k = None) by (apply Hfresh; simpl; by left).
    simpl flat_map. rewrite foldl_app, load_block by done.
    rewrite list_to_map_cons.
    rewrite IH; [|done|done|].
    + destruct (decide (k = j)) as [<-|Hne].
      * rewrite lookup_insert_eq.
        rewrite (not_elem_of_list_to_map_1 kvs k Hk).
        destruct l; [done|]. by rewrite lookup_insert_eq, Hacc.
      * rewrite lookup_insert_ne by done.
        destruct (list_to_map kvs !! j) as [[|x l']|]; [|done|].
        -- destruct l; [done|]. by rewrite lookup_insert_ne.
        -- destruct l; [done|]. by rewrite lookup_insert_ne.
    + intros k' Hk'.
      assert (k ≠ k') by (by intros ->).
      destruct l; [|rewrite lookup_insert_ne by done];
        apply Hfresh; simpl; by right.
Qed.

Lemma reload_lookup now m name :
  dates_set (financial_records m) →
  financial_records (reload now m) !! name
  = match financial_records m !! name with
    | Some (x :: l) => Some (x :: l)
    | _ => None
    end.
Proof.
  intros Hd. unfold reload, load_financial_records, save_financial_records.
  simpl. unfold records_to_save.
  rewrite (load_blocks now (map_to_list (financial_records m)) ∅).
  - by rewrite list_to_map_to_list, lookup_empty.
  - apply NoDup_fst_map_to_list.
  - apply Forall_forall. intros [k l] Hin.
    apply elem_of_map_to_list in Hin. by apply (Hd k l).
  - intros. apply lookup_empty.
Qed.

(** The stores the program builds satisfy [dates_set], provided the
    current date is written with at least one character. *)
Lemma FinancialRecord_init_dated d a c t dt now :
  now ≠ "" → date (FinancialRecord_init d a c t dt now) ≠ "".
Proof.
  intros Hnow. unfold FinancialRecord_init, date_or. simpl.
  destruct dt as [s|]; [|done]. by case_decide.
Qed.

Lemma dates_set_alter (f : list FinancialRecord → list FinancialRecord) k fr :
  (∀ l, dated l → dated (f l)) → dates_set fr → dates_set (alter f k fr).
Proof.
  intros Hf Hd j l. destruct (decide (k = j)) as [->|Hne].
  - rewrite lookup_alter_eq. destruct (fr !! j) as [l0|] eqn:Hj; [|done].
    intros [= <-]. by apply Hf, (Hd j).
  - rewrite lookup_alter_ne by done. apply Hd.
Qed.

Lemma dates_set_append k (r : FinancialRecord) fr :
  date r ≠ "" → dates_set fr →
  dates_set (alter (λ l, l ++ [r]) k
               (match fr !! k with None => <[k := []]> fr | Some _ => fr end)).
Proof.
  intros Hr Hd. apply dates_set_alter.
  - intros l Hl. apply Forall_app. split; [done|]. by repeat constructor.
  - destruct (fr !! k); [done|]. apply map_Forall_insert_2; [constructor|done].
Qed.

Lemma load_financial_records_dates_set now m :
  now ≠ "" →
  dates_set (financial_records (after (load_financial_records now m))).
Proof.
  intros Hnow. unfold load_financial_records.
  destruct (finance_file m) as [| | |records_data]; simpl;
    try apply map_Forall_empty.
  assert (Hacc : dates_set (∅ : gmap string (list FinancialRecord)))
    by apply map_Forall_empty.
  revert Hacc. generalize (∅ : gmap string (list FinancialRecord)).
  induction records_data as [|row rows IH]; intros acc Hacc; [done|].
  simpl. apply IH. unfold load_row.
  apply dates_set_append; [|done]. by apply FinancialRecord_init_dated.
Qed.

Lemma add_record_dates_set now d a c t m :
  now ≠ "" → dates_set (financial_records m) →
  dates_set (financial_records (after (add_record now d a c t m))).
Proof.
  intros Hnow Hd. unfold add_record.
  destruct (current_user m) as [u|]; [|done]. simpl.
  apply dates_set_append; [|done]. by apply FinancialRecord_init_dated.
Qed.

Lemma delete_record_dates_set record_index m :
  dates_set (financial_records m) →
  dates_set (financial_records (after (delete_record record_index m))).
Proof.
  intros Hd. unfold delete_record.
  destruct (current_user m) as [u|]; [|done].
  destruct (index_out_of_range _ _); [done|]. simpl.
  apply dates_set_alter; [|done]. intros l. apply Forall_delete.
Qed.

Lemma update_record_dates_set record_index d a c t m :
  dates_set (financial_records m) →
  dates_set (financial_records (after (update_record record_index d a c t m))).
Proof.
  intros Hd. unfold update_record.
  destruct (current_user m) as [u|]; [|done].
  destruct (index_out_of_range _ _); [done|]. simpl.
  apply dates_set_alter; [|done]. intros l Hl.
  apply Forall_alter; [done|]. intros old _ Hold.
  by destruct d, a, c, t.
Qed.
End RoundTrip.

(** C8 (amended). Saving the store and loading it again, for a store in
    which every record carries a date, gives back the store restricted to
    the users that hold at least one record: each such username maps to
    the same records, with the same description, amount, category,
    record_type and date, in the same order, while a username whose list
    is empty is absent afterwards.  Nothing is printed, and users, session
    and users file are unchanged. *)
Theorem reload_spec (now : string) (m : FinanceManager)
    (Hd : dates_set (financial_records m)) :
  financial_records (reload now m)
  = filter (λ kv, kv.2 ≠ []) (financial_records m)
  ∧ (∀ name x l, financial_records m !! name = Some (x :: l) →
       financial_records (reload now m) !! name = Some (x :: l))
  ∧ (∀ name, financial_records m !! name = Some [] →
       financial_records (reload now m) !! name = None)
  ∧ (∀ name, records_get (reload now m) name = records_get m name)
  ∧ printed (load_financial_records now (save_financial_records m)) = []
  ∧ users (reload now m) = users m
  ∧ current_user (reload now m) = current_user m
  ∧ users_file (reload now m) = users_file m
  ∧ finance_file (reload now m)
    = Json (records_to_save (financial_records m)).
Proof.
  split; [|split; [|split; [|split]]].
  - apply map_eq. intros name.
    rewrite (reload_lookup _ _ _ Hd), map_lookup_filter.
    by destruct (financial_records m !! name) as [[|x l]|].
  - intros name x l Hm. by rewrite (reload_lookup _ _ _ Hd), Hm.
  - intros name Hm. by rewrite (reload_lookup _ _ _ Hd), Hm.
  - intros name. unfold records_get. rewrite (reload_lookup _ _ _ Hd).
    by destruct (financial_records m !! name) as [[|x l]|].
  - done.
Qed.

Lemma reload_spec_witness :
  dates_set (financial_records (m_with [rec_salary; rec_lunch]))
  ∧ financial_records (reload "2024-03-09" (m_with [rec_salary; rec_lunch]))
      !! "alice" = Some [rec_salary; rec_lunch].
Proof.
  assert (Hd : dates_set (financial_records (m_with [rec_salary; rec_lunch]))).
  { change (map_Forall (λ _ l, dated l)
              ({[ "alice" := [rec_salary; rec_lunch] ]}
                 : gmap string (list FinancialRecord))).
    apply map_Forall_singleton. by repeat constructor. }
  split; [exact Hd|].
  exact (proj1 (proj2 (reload_spec "2024-03-09"
                         (m_with [rec_salary; rec_lunch]) Hd))
               "alice" rec_salary [rec_lunch] eq_refl).
Defined.

(** C8, as stated, fails: after a user's only record is deleted the store
    maps that username to the empty list; the file then holds no object
    for that user, and the reloaded store has no such key. *)
Lemma reload_empty_list_counterexample :
  financial_records
    (after (delete_record 0
              (after (add_record "2024-03-01" "salary" 100 "job" "income"
                                 m_logged_in))))
  = {[ "alice" := [] ]}
  ∧ financial_records (m_with []) = {[ "alice" := [] ]}
  ∧ finance_file (save_financial_records (m_with [])) = Json []
  ∧ financial_records (reload "2024-03-09" (m_with [])) = ∅
  ∧ financial_records (reload "2024-03-09" (m_with []))
    ≠ financial_records (m_with []).
Proof.
  assert (Hreload : financial_records (reload "2024-03-09" (m_with [])) = ∅).
  { unfold reload, save_financial_records, records_to_save.
    change (financial_records (m_with []))
      with ({[ "alice" := [] ]} : gmap string (list FinancialRecord)).
    by rewrite map_to_list_singleton. }
  split; [|split; [|split; [|split]]].
  - vm_compute. reflexivity.
  - reflexivity.
  - unfold save_financial_records, records_to_save.
    change (financial_records (m_with []))
      with ({[ "alice" := [] ]} : gmap string (list FinancialRecord)).
    by rewrite map_to_list_singleton.
  - exact Hreload.
  - rewrite Hreload. intros Heq.
    apply (f_equal (λ fr : gmap string (list FinancialRecord), fr !! "alice"))
      in Heq.
    by rewrite lookup_empty in Heq.
Qed.

(** * Further properties *)

(** ** Users file and start-up *)

Section UsersFile.
Implicit Types (us acc : gmap string User) (m : FinanceManager).
Implicit Types (kvs : list (string * User)).

Lemma keyed_insert us name pass :
  keyed us → keyed (<[name := mkUser name pass]> us).
Proof. intros Hk. by apply map_Forall_insert_2. Qed.

Lemma load_users_rows_keyed (rows : list UserRow) acc :
  keyed acc →
  keyed (foldl (λ users user,
                  <[urow_username user :=
                      mkUser (urow_username user) (urow_password user)]> users)
               acc rows).
Proof.
  revert acc. induction rows as [|row rows IH]; intros acc Hacc; [done|].
  simpl. apply IH. by apply keyed_insert.
Qed.

Lemma load_users_keyed (f : File UserRow) us :
  load_users f = Some us → keyed us.
Proof.
  destruct f as [| | |rows]; simpl; intros [= <-].
  - apply map_Forall_empty.
  - apply load_users_rows_keyed, map_Forall_empty.
Qed.

Lemma load_users_rows_lookup kvs acc :
  NoDup kvs.*1 →
  Forall (λ kv, username kv.2 = kv.1) kvs →
  ∀ j, foldl (λ users user,
                <[urow_username user :=
                    mkUser (urow_username user) (urow_password user)]> users)
             acc (User_to_dict <$> kvs.*2) !! j
       = match (list_to_map kvs : gmap string User) !! j with
         | Some u => Some u
         | None => acc !! j
         end.
Proof.
  revert acc. induction kvs as [|[k u] kvs IH]; intros acc Hnd Hk j.
  - simpl. by rewrite lookup_empty.
  - rewrite fmap_cons, NoDup_cons in Hnd. destruct Hnd as [Hfresh Hnd].
    apply Forall_cons in Hk as [Hu Hk]. simpl in Hfresh, Hu.
    rewrite !fmap_cons. simpl foldl. rewrite IH by done.
    rewrite list_to_map_cons. destruct u as [uname upass].
    simpl in *. subst uname.
    destruct (decide (k = j)) as [<-|Hne].
    + by rewrite (not_elem_of_list_to_map_1 kvs k Hfresh), !lookup_insert_eq.
    + rewrite !lookup_insert_ne by done.
      by destruct (list_to_map kvs !! j).
Qed.
End UsersFile.

Lemma load_users_saved (us : gmap string User) :
  keyed us →
  load_users (Json (User_to_dict <$> (map_to_list us).*2)) = Some us.
Proof.
  intros Hk. simpl. f_equal. apply map_eq. intros j.
  rewrite (load_users_rows_lookup (map_to_list us) ∅).
  - rewrite list_to_map_to_list, lookup_empty.
    by destruct (us !! j).
  - apply NoDup_fst_map_to_list.
  - apply Forall_forall. intros [k u] Hin.
    apply elem_of_map_to_list in Hin. by apply (Hk k u).
Qed.

(** X1. What [save_users] writes, [load_users] reads back: for a user
    store whose entries sit under their own usernames, loading the file
    just saved returns that very store, passwords included. *)
Theorem save_load_users_round_trip (m : FinanceManager)
    (Hk : keyed (users m)) :
  load_users (users_file (save_users m)) = Some (users m).
Proof.
  unfold save_users. simpl users_file. simpl load_users.
  f_equal. apply map_eq. intros j.
  rewrite (load_users_rows_lookup (map_to_list (users m)) ∅).
  - rewrite list_to_map_to_list, lookup_empty.
    by destruct (users m !! j).
  - apply NoDup_fst_map_to_list.
  - apply Forall_forall. intros [k u] Hin.
    apply elem_of_map_to_list in Hin. by apply (Hk k u).
Qed.

Lemma save_load_users_round_trip_witness :
  keyed (users m_registered)
  ∧ load_users (users_file (save_users m_registered))
    = Some {[ "alice" := alice ]}.
Proof.
  assert (Hk : keyed (users m_registered)).
  { apply map_Forall_singleton. reflexivity. }
  split; [exact Hk|].
  exact (save_load_users_round_trip m_registered Hk).
Defined.

Lemma session_ok_same (m m' : FinanceManager) :
  users m' = users m → current_user m' = current_user m →
  session_ok m → session_ok m'.
Proof. unfold session_ok. by intros -> ->. Qed.

(** X2. The session always holds a registered user: if the user store is
    keyed by username and the current user, when there is one, is an entry
    of the store, the same is true after [register_user],
    [authenticate_user], [add_record], [delete_record], [update_record]
    and [load_financial_records], whatever their arguments; and it is true
    of every manager that [__init__] builds. *)
Theorem session_ok_invariant (m : FinanceManager) (Hok : session_ok m) :
  (∀ name pass, session_ok (after (register_user name pass m)))
  ∧ (∀ name pass, session_ok (after (authenticate_user name pass m)))
  ∧ (∀ now d a c t, session_ok (after (add_record now d a c t m)))
  ∧ (∀ i, session_ok (after (delete_record i m)))
  ∧ (∀ i d a c t, session_ok (after (update_record i d a c t m)))
  ∧ (∀ now, session_ok (after (load_financial_records now m)))
  ∧ (∀ now uf ff r,
       FinanceManager_init now uf ff = Returned r → session_ok (after r)).
Proof.
  pose proof Hok as [Hk Hs].
  split; [|split; [|split; [|split; [|split; [|split]]]]].
  - intros name pass. unfold register_user.
    destruct (users m !! name) as [u0|] eqn:Hname; [done|].
    split; simpl; [by apply keyed_insert|].
    intros u Hu. rewrite lookup_insert_ne; [by apply Hs|].
    intros ->. rewrite (Hs u Hu) in Hname. done.
  - intros name pass. unfold authenticate_user.
    destruct (users m !! name) as [u0|] eqn:Hname; [|done].
    case_decide; [|done]. split; simpl; [done|].
    intros u [= <-]. by rewrite (Hk name u0 Hname).
  - intros now d a c t. apply (session_ok_same m); [| |done];
      unfold add_record; by destruct (current_user m) eqn:Hu.
  - intros i. apply (session_ok_same m); [| |done];
      unfold delete_record; (destruct (current_user m) eqn:Hu; [|done]);
      by destruct (index_out_of_range _ _).
  - intros i d a c t. apply (session_ok_same m); [| |done];
      unfold update_record; (destruct (current_user m) eqn:Hu; [|done]);
      by destruct (index_out_of_range _ _).
  - intros now. apply (session_ok_same m); [| |done];
      unfold load_financial_records; by destruct (finance_file m).
  - intros now uf ff r. unfold FinanceManager_init.
    destruct (load_users uf) as [us|] eqn:Hus; [|done].
    intros [= <-]. apply load_users_keyed in Hus.
    apply (session_ok_same (mkManager us None ∅ uf ff)).
    + unfold load_financial_records. simpl. by destruct ff.
    + unfold load_financial_records. simpl. by destruct ff.
    + split; [done|]. intros u Hu. discriminate Hu.
Qed.

Lemma session_ok_invariant_witness :
  session_ok m_logged_in
  ∧ session_ok (after (register_user "bob" "pw" m_logged_in))
  ∧ session_ok (after (authenticate_user "alice" "Secret" m_registered)).
Proof.
  assert (Hk : keyed (users m_registered)).
  { apply map_Forall_singleton. reflexivity. }
  assert (Hin : session_ok m_logged_in).
  { split; [exact Hk|]. intros u Hu.
    change (Some alice = Some u) in Hu. injection Hu as <-. reflexivity. }
  assert (Hout : session_ok m_registered).
  { split; [exact Hk|]. intros u Hu. discriminate Hu. }
  split; [exact Hin|]. split.
  - exact (proj1 (session_ok_invariant m_logged_in Hin) "bob" "pw").
  - exact (proj1 (proj2 (session_ok_invariant m_registered Hout))
                 "alice" "Secret").
Defined.

(** X3. A user who has just registered can log in with the password given,
    and with no other; and registering a name that is taken neither
    replaces the stored user nor changes the outcome of any later login
    under that name. *)
Theorem register_then_authenticate (name pass : string) (m : FinanceManager) :
  (users m !! name = None →
     let m1 := after (register_user name pass m) in
     ret (authenticate_user name pass m1) = true
     ∧ current_user (after (authenticate_user name pass m1))
       = Some (mkUser name pass)
     ∧ ∀ other, other ≠ pass → ret (authenticate_user name other m1) = false)
  ∧ (∀ u attempt, users m !! name = Some u →
       users (after (register_user name pass m)) !! name = Some u
       ∧ authenticate_user name attempt (after (register_user name pass m))
         = authenticate_user name attempt m).
Proof.
  split.
  - intros Hfree m1. subst m1. rewrite (register_user_fresh _ _ _ Hfree).
    unfold authenticate_user. simpl. rewrite lookup_insert_eq. simpl.
    rewrite decide_True by done. split; [done|]. split; [done|].
    intros other Hne. by rewrite decide_False.
  - intros u attempt Hu. by rewrite (register_user_taken _ _ _ u Hu).
Qed.

Lemma register_then_authenticate_witness :
  users m_registered !! "bob" = None
  ∧ ret (authenticate_user "bob" "pw"
           (after (register_user "bob" "pw" m_registered))) = true
  ∧ users (after (register_user "alice" "hijack" m_registered)) !! "alice"
    = Some alice.
Proof.
  pose proof (register_then_authenticate "bob" "pw" m_registered) as [Hb _].
  pose proof (register_then_authenticate "alice" "hijack" m_registered)
    as [_ Ha].
  split; [reflexivity|]. split.
  - exact (proj1 (Hb eq_refl)).
  - exact (proj1 (Ha alice "Secret" eq_refl)).
Defined.

(** X4. An unreadable users file stops start-up, an unreadable records
    file does not: when the users file is of size zero or holds text that
    is not JSON, [__init__] raises, [load_users] letting the
    [JSONDecodeError] escape; when the users file is absent or a JSON
    array of users, [__init__] returns a manager with the users loaded and
    nobody logged in, and a records file that is absent, of size zero or
    text that is not JSON leaves the record store empty, the warning
    being printed in the last case only.  Start-up writes to neither
    file. *)
Theorem FinanceManager_init_outcome (now : string) (uf : File UserRow)
    (ff : File Row) :
  (uf = ZeroBytes ∨ uf = Corrupt → FinanceManager_init now uf ff = Raised)
  ∧ (∀ us, load_users uf = Some us →
     ∃ r, FinanceManager_init now uf ff = Returned r
          ∧ users (after r) = us
          ∧ current_user (after r) = None
          ∧ users_file (after r) = uf
          ∧ finance_file (after r) = ff
          ∧ (ff = Missing ∨ ff = ZeroBytes →
             financial_records (after r) = ∅ ∧ printed r = [])
          ∧ (ff = Corrupt →
             financial_records (after r) = ∅
             ∧ printed r = [Text corrupt_warning]))
  ∧ load_users Missing = Some ∅.
Proof.
  unfold FinanceManager_init. split; [|split; [|done]].
  - by intros [->| ->].
  - intros us ->. eexists. split; [reflexivity|].
    unfold load_financial_records. simpl.
    split; [by destruct ff|]. split; [by destruct ff|].
    split; [by destruct ff|]. split; [by destruct ff|].
    split; [by intros [->| ->]|]. by intros ->.
Qed.

Lemma FinanceManager_init_outcome_witness :
  FinanceManager_init "2024-03-09" Corrupt Missing = Raised
  ∧ ∃ r, FinanceManager_init "2024-03-09" Missing Corrupt = Returned r
         ∧ printed r = [Text corrupt_warning]
         ∧ financial_records (after r) = ∅.
Proof.
  destruct (FinanceManager_init_outcome "2024-03-09" Corrupt Missing)
    as (Hraise & _).
  destruct (FinanceManager_init_outcome "2024-03-09" Missing Corrupt)
    as (_ & Hret & _).
  split; [apply Hraise; by right|].
  destruct (Hret ∅ eq_refl) as (r & Hr & _ & _ & _ & _ & _ & Hcorrupt).
  exists r. split; [exact Hr|].
  destruct (Hcorrupt eq_refl) as [Hfr Hpr]. by split.
Defined.

(** ** Memory and files *)

Section Sync.
Implicit Types (m : FinanceManager).

Lemma synced_records_saved m fr :
  users_file m = Json (User_to_dict <$> (map_to_list (users m)).*2) →
  synced (save_financial_records (set_financial_records fr m)).
Proof. intros Hu. by split. Qed.

Lemma load_row_append now (acc : gmap string (list FinancialRecord)) row :
  load_row now acc row
  = <[row_username row :=
        default [] (acc !! row_username row) ++ [row_record now row]]> acc.
Proof. unfold load_row, row_record. apply store_append. Qed.

Lemma rows_of_cons now name row (rows : list Row) :
  rows_of now name (row :: rows)
  = if decide (row_username row = name)
    then row_record now row :: rows_of now name rows
    else rows_of now name rows.
Proof. unfold rows_of. rewrite filter_cons. by case_decide. Qed.

Lemma load_rows_lookup now (rows : list Row)
    (acc : gmap string (list FinancialRecord)) name :
  foldl (load_row now) acc rows !! name
  = match rows_of now name rows with
    | [] => acc !! name
    | rs => Some (default [] (acc !! name) ++ rs)
    end.
Proof.
  revert acc. induction rows as [|row rows IH]; intros acc; [done|].
  simpl foldl. rewrite IH, load_row_append, rows_of_cons.
  case_decide as Hname.
  - subst name. rewrite lookup_insert_eq. simpl.
    destruct (rows_of now (row_username row) rows); [done|].
    by rewrite <- app_assoc.
  - by rewrite lookup_insert_ne.
Qed.
End Sync.

(** X5. Memory and files stay in step: when the users file and the
    records file hold what the two save methods write for the stores in
    memory, they still do after [register_user], [authenticate_user],
    [add_record], [delete_record] and [update_record], whether the call
    succeeds or is rejected. *)
Theorem synced_invariant (m : FinanceManager) (Hs : synced m) :
  (∀ name pass, synced (after (register_user name pass m)))
  ∧ (∀ name pass, synced (after (authenticate_user name pass m)))
  ∧ (∀ now d a c t, synced (after (add_record now d a c t m)))
  ∧ (∀ i, synced (after (delete_record i m)))
  ∧ (∀ i d a c t, synced (after (update_record i d a c t m))).
Proof.
  pose proof Hs as [Hu Hf].
  split; [|split; [|split; [|split]]].
  - intros name pass. unfold register_user.
    destruct (users m !! name); [done|]. by split.
  - intros name pass. unfold authenticate_user.
    destruct (users m !! name); [|done]. by case_decide.
  - intros now d a c t. unfold add_record.
    destruct (current_user m); [|done]. by apply synced_records_saved.
  - intros i. unfold delete_record.
    destruct (current_user m); [|done].
    destruct (index_out_of_range _ _); [done|].
    by apply synced_records_saved.
  - intros i d a c t. unfold update_record.
    destruct (current_user m); [|done].
    destruct (index_out_of_range _ _); [done|].
    by apply synced_records_saved.
Qed.

Lemma synced_invariant_witness :
  synced (save_users (save_financial_records (m_with [rec_salary])))
  ∧ synced (after (delete_record 0
              (save_users (save_financial_records (m_with [rec_salary]))))).
Proof.
  assert (Hs : synced (save_users (save_financial_records
                                     (m_with [rec_salary])))).
  { split; reflexivity. }
  split; [exact Hs|].
  exact (proj1 (proj2 (proj2 (proj2 (synced_invariant _ Hs)))) 0).
Defined.

(** X6. Nothing is lost by a restart: when memory and files are in step,
    the user store is keyed by username and every record carries a date,
    [__init__] on the two files succeeds, prints nothing, and builds a
    manager with the same user store and, for every username, the same
    records in the same order; only the session is gone. *)
Theorem restart_restores (now : string) (m : FinanceManager)
    (Hs : synced m) (Hk : keyed (users m))
    (Hd : dates_set (financial_records m)) :
  ∃ r, FinanceManager_init now (users_file m) (finance_file m) = Returned r
       ∧ printed r = []
       ∧ users (after r) = users m
       ∧ current_user (after r) = None
       ∧ ∀ name, records_get (after r) name = records_get m name.
Proof.
  destruct Hs as [Hu Hf]. unfold FinanceManager_init.
  rewrite Hu, (load_users_saved _ Hk), Hf.
  eexists. split; [reflexivity|]. simpl.
  split; [done|]. split; [done|]. split; [done|].
  intros name. unfold records_get. simpl.
  pose proof (reload_lookup now m name Hd) as Hl.
  unfold reload, load_financial_records, save_financial_records in Hl.
  simpl in Hl. rewrite Hl.
  by destruct (financial_records m !! name) as [[|x l]|].
Qed.

Lemma restart_restores_witness :
  ∃ r, FinanceManager_init "2024-03-09"
         (users_file (save_users (save_financial_records
                                    (m_with [rec_salary; rec_lunch]))))
         (finance_file (save_users (save_financial_records
                                      (m_with [rec_salary; rec_lunch]))))
       = Returned r
       ∧ records_get (after r) "alice" = [rec_salary; rec_lunch].
Proof.
  pose (m := save_users (save_financial_records
                           (m_with [rec_salary; rec_lunch]))).
  assert (Hs : synced m) by (split; reflexivity).
  assert (Hk : keyed (users m)).
  { apply map_Forall_singleton. reflexivity. }
  assert (Hd : dates_set (financial_records m)).
  { apply map_Forall_singleton. by repeat constructor. }
  destruct (restart_restores "2024-03-09" m Hs Hk Hd)
    as (r & Hr & _ & _ & _ & Hrec).
  exists r. split; [exact Hr|]. exact (Hrec "alice").
Defined.

(** X7. On a records file that holds a JSON array of objects with the
    keys it reads, [load_financial_records] sorts the objects by username:
    a username is a key of the loaded store exactly when some object
    carries it, and its list holds the records of those objects in file
    order, field for field, an object without a date, or with an empty
    one, taking the current date.  Nothing is printed, and loading
    changes neither the user store, nor the session, nor a file. *)
Theorem load_financial_records_groups (now : string) (m : FinanceManager)
    (rows : list Row) (Hfile : finance_file m = Json rows) :
  let r := load_financial_records now m in
  printed r = []
  ∧ (∀ name,
       financial_records (after r) !! name
       = match rows_of now name rows with
         | [] => None
         | rs => Some rs
         end)
  ∧ (∀ name, is_Some (financial_records (after r) !! name)
             ↔ ∃ row, row ∈ rows ∧ row_username row = name)
  ∧ (∀ row, date (row_record now row)
            = match row_date row with
              | Some s => if decide (s = "") then now else s
              | None => now
              end
            ∧ description (row_record now row) = row_description row
            ∧ amount (row_record now row) = row_amount row
            ∧ category (row_record now row) = row_category row
            ∧ record_type (row_record now row) = row_record_type row)
  ∧ users (after r) = users m
  ∧ current_user (after r) = current_user m
  ∧ users_file (after r) = users_file m
  ∧ finance_file (after r) = finance_file m.
Proof.
  intros r. subst r. unfold load_financial_records. rewrite Hfile. simpl.
  assert (Hlookup : ∀ name,
    foldl (load_row now) ∅ rows !! name
    = match rows_of now name rows with
      | [] => None
      | rs => Some rs
      end).
  { intros name. rewrite load_rows_lookup, lookup_empty.
    by destruct (rows_of now name rows). }
  split; [done|]. split; [exact Hlookup|]. split; [|split].
  - intros name. rewrite Hlookup. unfold rows_of.
    destruct (filter (λ row, row_username row = name) rows) as [|row rs]
      eqn:Hrows; simpl.
    + split; [by intros [? ?]|]. intros (row & Hin & Hname).
      assert (Hrow : row ∈ filter (λ row, row_username row = name) rows)
        by (by apply list_elem_of_filter).
      rewrite Hrows in Hrow. by apply elem_of_nil in Hrow.
    + split; [|by eexists]. intros _. exists row.
      assert (Hrow : row ∈ filter (λ row, row_username row = name) rows)
        by (rewrite Hrows; by left).
      apply list_elem_of_filter in Hrow as [Hname Hin]. done.
  - intros row. by destruct row as [? ? ? ? ? [s|]].
  - by rewrite Hfile.
Qed.

Lemma load_financial_records_groups_witness :
  financial_records
    (after (load_financial_records "2024-03-09"
       (set_finance_file
          (Json [mkRow "bob" "tea" 3 "food" "expense" None;
                 mkRow "alice" "salary" 100 "job" "income" (Some "2024-03-01");
                 mkRow "bob" "bus" 2 "travel" "expense" (Some "")])
          m_registered)))
  !! "bob"
  = Some [mkRecord "tea" 3 "food" "expense" "2024-03-09";
          mkRecord "bus" 2 "travel" "expense" "2024-03-09"].
Proof.
  exact (proj1 (proj2 (load_financial_records_groups "2024-03-09"
                  (set_finance_file
                     (Json [mkRow "bob" "tea" 3 "food" "expense" None;
                            mkRow "alice" "salary" 100 "job" "income"
                                  (Some "2024-03-01");
                            mkRow "bob" "bus" 2 "travel" "expense" (Some "")])
                     m_registered) _ eq_refl)) "bob").
Defined.

(** ** Totals and the record types *)

Lemma total_of_app ty (l1 l2 : list FinancialRecord) :
  total_of ty (l1 ++ l2) = total_of ty l1 + total_of ty l2.
Proof.
  induction l1 as [|r l1 IH]; simpl; [done|]. rewrite IH. lia.
Qed.

(** X8. What one more record does to the totals, amounts being integers:
    after [add_record] with amount [a], the income total is the old one
    plus [a] when the record_type given is exactly 'income', and the
    savings are that new income total minus the expense total; the
    expense total is the old one plus [a] when it is exactly 'expense',
    and the savings are the income total minus that new expense total;
    for any other string, which [add_record] stores all the same, neither
    total nor the savings moves. *)
Theorem add_record_totals (now d : string) (a : Z) (c t : string)
    (m : FinanceManager) (u : User) (Hu : current_user m = Some u) :
  let m' := after (add_record now d a c t m) in
  ∃ income expense,
    ret (calculate_totals m) = (Some income, Some expense)
    ∧ ret (calculate_savings m) = Some (income - expense)
    ∧ (t = "income" →
       ret (calculate_totals m') = (Some (income + a), Some expense)
       ∧ ret (calculate_savings m') = Some (income + a - expense))
    ∧ (t = "expense" →
       ret (calculate_totals m') = (Some income, Some (expense + a))
       ∧ ret (calculate_savings m') = Some (income - (expense + a)))
    ∧ (t ≠ "income" → t ≠ "expense" →
       ret (calculate_totals m') = ret (calculate_totals m)
       ∧ ret (calculate_savings m') = ret (calculate_savings m)
       ∧ records_get m' (username u)
         = records_get m (username u) ++ [mkRecord d a c t now]).
Proof.
  intros m'. subst m'.
  exists (total_of "income" (records_get m (username u))),
         (total_of "expense" (records_get m (username u))).
  assert (Hu' : current_user (after (add_record now d a c t m)) = Some u)
    by (by rewrite add_record_current_user).
  rewrite (calculate_totals_logged_in _ _ Hu),
          (calculate_savings_logged_in _ _ Hu),
          (calculate_totals_logged_in _ _ Hu'),
          (calculate_savings_logged_in _ _ Hu').
  rewrite (add_record_logged_in _ _ _ _ _ _ _ Hu). simpl.
  rewrite records_get_set, lookup_insert_eq. simpl.
  rewrite !total_of_app. simpl.
  split; [done|]. split; [done|]. split; [|split].
  - intros ->. rewrite decide_True by done. rewrite decide_False by done.
    by rewrite !Z.add_0_r.
  - intros ->. rewrite decide_False by done. rewrite decide_True by done.
    by rewrite !Z.add_0_r.
  - intros Hi He. rewrite !decide_False by done.
    rewrite !Z.add_0_r. done.
Qed.

Lemma add_record_totals_witness :
  current_user (m_with [rec_salary; rec_lunch]) = Some alice
  ∧ ret (calculate_totals
           (after (add_record "2024-03-09" "bonus" 40 "job" "income"
                              (m_with [rec_salary; rec_lunch]))))
    = (Some 140, Some 30)
  ∧ ret (calculate_savings
           (after (add_record "2024-03-09" "rent" 25 "home" "expense"
                              (m_with [rec_salary; rec_lunch]))))
    = Some 45
  ∧ ret (calculate_totals
           (after (add_record "2024-03-09" "bonus" 40 "job" "Income"
                              (m_with [rec_salary; rec_lunch]))))
    = (Some 100, Some 30).
Proof.
  split; [reflexivity|].
  destruct (add_record_totals "2024-03-09" "bonus" 40 "job" "income"
              (m_with [rec_salary; rec_lunch]) alice eq_refl)
    as (i1 & e1 & Hbefore1 & _ & Hincome & _).
  destruct (add_record_totals "2024-03-09" "rent" 25 "home" "expense"
              (m_with [rec_salary; rec_lunch]) alice eq_refl)
    as (i2 & e2 & Hbefore2 & _ & _ & Hexpense & _).
  destruct (add_record_totals "2024-03-09" "bonus" 40 "job" "Income"
              (m_with [rec_salary; rec_lunch]) alice eq_refl)
    as (i3 & e3 & Hbefore3 & _ & _ & _ & Hother).
  change (ret (calculate_totals (m_with [rec_salary; rec_lunch])))
    with (Some 100, Some 30) in Hbefore1, Hbefore2, Hbefore3.
  injection Hbefore1 as <- <-. injection Hbefore2 as <- <-.
  injection Hbefore3 as <- <-.
  split; [exact (proj1 (Hincome eq_refl))|].
  split; [exact (proj2 (Hexpense eq_refl))|].
  apply Hother; discriminate.
Defined.

(** ** Sums of grouped frames *)

Lemma frame_total_group_add {K : Type} (cmp : K → K → comparison) (k : K)
    (v : Z) (groups : list (K * Z)) :
  frame_total (group_add Z.add cmp k v groups) = frame_total groups + v.
Proof.
  induction groups as [|[k' v'] rest IH]; simpl; [lia|].
  destruct (cmp k k'); simpl; [lia|lia|]. rewrite IH. lia.
Qed.

Lemma frame_total_app {K : Type} (rows1 rows2 : list (K * Z)) :
  frame_total (rows1 ++ rows2) = frame_total rows1 + frame_total rows2.
Proof.
  induction rows1 as [|[k v] rows1 IH]; simpl; [done|].
  fold (frame_total (rows1 ++ rows2)) (frame_total rows1). rewrite IH. lia.
Qed.

Lemma frame_total_groupby_sum {K : Type} (cmp : K → K → comparison)
    (rows : list (K * Z)) :
  frame_total (groupby_sum Z.add cmp rows) = frame_total rows.
Proof.
  induction rows as [|[k v] rows IH] using rev_ind; [done|].
  unfold groupby_sum in *. rewrite foldl_snoc. simpl.
  rewrite frame_total_group_add, IH, frame_total_app. simpl. lia.
Qed.

Lemma wrap_rows_fit {K : Type} (d : Dtype) (groups : list (K * Z)) :
  Forall (λ kv, dtype_wrap d kv.2 = kv.2) groups → wrap_rows d groups = groups.
Proof.
  unfold wrap_rows. induction 1 as [|[k v] rest Hv _ IH]; [done|].
  rewrite fmap_cons. simpl in Hv. simpl. rewrite Hv. f_equal. exact IH.
Qed.

(** When no sum leaves the 64-bit range, the frame is the one with the
    exact sums. *)
Section ExactFrames.
Context {K : Type} `{EqDecision K} (cmp : K → K → comparison).
Hypothesis cmp_eq : ∀ a b, cmp a b = Eq ↔ a = b.
Hypothesis cmp_antisym : ∀ a b, cmp a b = CompOpp (cmp b a).
Hypothesis cmp_trans : ∀ a b c, cmp a b = Lt → cmp b c = Lt → cmp a c = Lt.

Lemma groupby_sum_exact (rows : list (K * Z)) :
  Forall (λ kv, - 2 ^ 63 ≤ kv.2 < 2 ^ 63) rows →
  (∀ k, - 2 ^ 63 ≤ key_total k rows < 2 ^ 63) →
  groupby_sum (dtype_add Int64) cmp rows = groupby_sum Z.add cmp rows.
Proof.
  intros Hrows Hsums.
  rewrite (groupby_sum_wrap cmp Int64 rows).
  - apply wrap_rows_fit. apply Forall_forall. intros [k v] Hin. simpl.
    apply (ascending_elem_of cmp cmp_eq) in Hin;
      [|by apply groupby_sum_ascending].
    rewrite (groupby_sum_get cmp cmp_eq cmp_antisym cmp_trans) in Hin.
    case_decide; [|done]. injection Hin as <-.
    by apply dtype_wrap_int64.
  - eapply Forall_impl; [exact Hrows|]. intros [k v] Hv.
    by apply dtype_wrap_int64.
Qed.
End ExactFrames.

Lemma frame_total_expense_rows (records : list FinancialRecord) :
  frame_total (expense_rows records) = total_of "expense" records.
Proof.
  induction records as [|r records IH]; [done|].
  rewrite expense_rows_cons. simpl. case_decide; simpl; rewrite IH; lia.
Qed.

Lemma expense_rows_in_range (records : list FinancialRecord) :
  Forall (λ r, - 2 ^ 63 ≤ amount r < 2 ^ 63) records →
  Forall (λ kv : SpendingRow, - 2 ^ 63 ≤ kv.2 < 2 ^ 63) (expense_rows records).
Proof.
  intros Hall. apply Forall_forall. intros [c v] Hin.
  unfold expense_rows in Hin.
  apply list_elem_of_fmap in Hin as (r & [= -> ->] & Hr).
  apply list_elem_of_filter in Hr as [_ Hr].
  by apply (proj1 (Forall_forall _ _) Hall).
Qed.

Section SpendingTotal.
Context {Timestamp : Type}.
Variable to_datetime : list string → option (list Timestamp).

(** X9. The spending distribution accounts for every expense, as long as
    the integers stay within 64 bits: when every amount of the logged-in
    user and every per-category expense sum lies between -2^63 and
    2^63 - 1, the amounts of the rows of the frame that
    [view_spending_distribution] prints add up to the expense total that
    [calculate_totals] returns for the same manager. *)
Theorem spending_distribution_adds_up (m : FinanceManager) (u : User)
    (r : Run unit) (dist : list SpendingRow)
    (Hu : current_user m = Some u)
    (Hview : view_spending_distribution to_datetime m = Returned r)
    (Hframe : SpendingFrame dist ∈ printed r)
    (Hall : Forall (λ record, - 2 ^ 63 ≤ amount record < 2 ^ 63)
                   (records_get m (username u)))
    (Hsums : ∀ c, - 2 ^ 63
                  ≤ category_total c (records_get m (username u)) < 2 ^ 63) :
  (ret (calculate_totals m)).2 = Some (frame_total dist).
Proof.
  revert Hview Hall Hsums. unfold view_spending_distribution, calculate_totals.
  unfold records_get. rewrite Hu.
  destruct (financial_records m !! username u) as [[|r0 l]|].
  1, 3: intros [= <-]; simpl in Hframe;
        apply list_elem_of_singleton in Hframe; discriminate.
  simpl default.
  destruct (to_datetime _); [|done].
  destruct (expense_rows (r0 :: l)) as [|row rows] eqn:Hrows.
  { intros [= <-]. simpl in Hframe.
    apply list_elem_of_singleton in Hframe. discriminate. }
  intros [= <-] Hall Hsums. simpl in Hframe.
  apply elem_of_cons in Hframe as [Hframe|Hframe]; [discriminate|].
  apply list_elem_of_singleton in Hframe. injection Hframe as ->.
  cbv beta iota delta [ret snd]. f_equal.
  rewrite sum_amounts_total_of, <- Hrows.
  assert (Hd : infer_dtype (amount <$> r0 :: l) = Int64)
    by (apply infer_dtype_int64, Forall_fmap; exact Hall).
  change (amount r0 :: list_fmap FinancialRecord Z amount l)
    with (amount <$> r0 :: l).
  rewrite Hd.
  rewrite (groupby_sum_exact String.compare string_compare_eq
             String.compare_antisym string_compare_trans).
  - by rewrite frame_total_groupby_sum, frame_total_expense_rows.
  - by apply expense_rows_in_range.
  - intros c. rewrite expense_rows_total. apply Hsums.
Qed.
End SpendingTotal.

Lemma spending_distribution_adds_up_witness :
  (ret (calculate_totals
          (m_with [rec_salary; rec_groceries; rec_snack; rec_flat]))).2
  = Some (frame_total [("food", 30); ("rent", 50)]).
Proof.
  pose (records := [rec_salary; rec_groceries; rec_snack; rec_flat]).
  apply (spending_distribution_adds_up iso_dates (m_with records) alice
           (mkRun tt [Text (nl +:+ "Spending Distribution by Category:");
                      SpendingFrame [("food", 30); ("rent", 50)]]
                  (m_with records))).
  - reflexivity.
  - vm_compute. reflexivity.
  - apply list_elem_of_further, list_elem_of_here.
  - change (Forall (λ record, - 2 ^ 63 ≤ amount record < 2 ^ 63) records).
    repeat constructor; simpl; lia.
  - intros c.
    change (records_get (m_with records) (username alice)) with records.
    unfold records. simpl. repeat case_decide; lia.
Defined.

(** ** The period report *)

Lemma string_compare_refl (s : string) : String.compare s s = Eq.
Proof. by apply string_compare_eq. Qed.

Lemma report_key_compare_eq (a b : Z * string * string) :
  report_key_compare a b = Eq ↔ a = b.
Proof.
  destruct a as [[pa ta] ca], b as [[pb tb] cb].
  unfold report_key_compare. simpl. split.
  - destruct (Z.compare_spec pa pb) as [->| |]; [|done..].
    destruct (String.compare ta tb) eqn:Ht; [|done..].
    apply string_compare_eq in Ht as ->.
    by intros ->%string_compare_eq.
  - intros [= -> -> ->].
    by rewrite Z.compare_refl, !string_compare_refl.
Qed.

Lemma report_key_compare_antisym (a b : Z * string * string) :
  report_key_compare a b = CompOpp (report_key_compare b a).
Proof.
  destruct a as [[pa ta] ca], b as [[pb tb] cb].
  unfold report_key_compare. simpl.
  rewrite (Z.compare_antisym pb pa), (String.compare_antisym ta tb),
          (String.compare_antisym ca cb).
  destruct (Z.compare pb pa); simpl; [|done..].
  by destruct (String.compare tb ta).
Qed.

Lemma report_key_compare_trans (a b c : Z * string * string) :
  report_key_compare a b = Lt → report_key_compare b c = Lt →
  report_key_compare a c = Lt.
Proof.
  destruct a as [[pa ta] ca], b as [[pb tb] cb], c as [[pc tc] cc].
  unfold report_key_compare. simpl.
  destruct (Z.compare_spec pa pb) as [->|Hab|Hab]; [| |done].
  - destruct (Z.compare_spec pb pc) as [->|Hbc|Hbc]; [| |done].
    + destruct (String.compare ta tb) eqn:Hab; [| |done].
      * apply string_compare_eq in Hab as ->.
        destruct (String.compare tb tc); [|done..].
        apply string_compare_trans.
      * destruct (String.compare tb tc) eqn:Hbc; [| |done].
        -- apply string_compare_eq in Hbc as <-. by rewrite Hab.
        -- by rewrite (string_compare_trans _ _ _ Hab Hbc).
    + done.
  - destruct (Z.compare_spec pb pc) as [->|Hbc|Hbc]; [| |done].
    + by rewrite (proj2 (Z.compare_lt_iff pa pc) Hab).
    + intros _ _. rewrite (proj2 (Z.compare_lt_iff pa pc)); [done|lia].
Qed.

Section PeriodReport.
Context {Timestamp : Type}.
Variable to_datetime : list string → option (list Timestamp).
Variable to_period_M : Timestamp → Z.
Variable to_period_W : Timestamp → Z.

Lemma report_rows_amounts (to_period : Timestamp → Z)
    (dates : list Timestamp) (records : list FinancialRecord)
    (kv : ReportRow) :
  kv ∈ report_rows to_period (zip dates records) →
  kv.2 ∈ amount <$> records.
Proof.
  unfold report_rows. intros ([ts r] & -> & Hin)%list_elem_of_fmap. simpl.
  apply list_elem_of_fmap. exists r. split; [done|].
  by apply elem_of_zip_r in Hin.
Qed.

(** X10. The report of a valid period, for a logged-in user with records
    whose dates parse: [generate_report] returns the frame it prints; the
    frame has one row for each combination of period, record_type and
    category that occurs, in ascending order of that triple; the amount of
    a row is the sum of the amounts of the records with exactly that
    triple, as the integer type of the amount column holds it, so that
    records of different periods are never merged; and when every amount
    of the user and every such sum lies between -2^63 and 2^63 - 1 the
    sums are exact and the amounts of the frame add up to the amounts of
    all the rows grouped.  'monthly' groups by [to_period('M')] and
    'weekly' by [to_period('W')]. *)
Theorem generate_report_groups (period : string) (m : FinanceManager)
    (u : User) (dates : list Timestamp)
    (Hu : current_user m = Some u)
    (Hne : records_get m (username u) ≠ [])
    (Hdates : to_datetime (date <$> records_get m (username u)) = Some dates)
    (Hperiod : period = "monthly" ∨ period = "weekly") :
  let records := records_get m (username u) in
  let dtype := infer_dtype (amount <$> records) in
  let to_period :=
    if decide (period = "monthly") then to_period_M else to_period_W in
  let rows := report_rows to_period (zip dates records) in
  ∃ report,
    generate_report to_datetime to_period_M to_period_W period m
    = Returned (mkRun (Some report) [ReportFrame report] m)
    ∧ ascending report_key_compare report
    ∧ (∀ k v, (k, v) ∈ report
              ↔ k ∈ rows.*1 ∧ v = dtype_wrap dtype (key_total k rows))
    ∧ (Forall (λ record, - 2 ^ 63 ≤ amount record < 2 ^ 63) records →
       (∀ k, - 2 ^ 63 ≤ key_total k rows < 2 ^ 63) →
       (∀ k v, (k, v) ∈ report ↔ k ∈ rows.*1 ∧ v = key_total k rows)
       ∧ frame_total report = frame_total rows).
Proof.
  intros records dtype to_period rows.
  assert (Hfit : Forall (λ kv, dtype_wrap dtype kv.2 = kv.2) rows).
  { apply Forall_forall. intros kv Hin. apply infer_dtype_fits.
    by apply (report_rows_amounts to_period dates). }
  assert (Helem : ∀ k v,
    (k, v) ∈ groupby_sum (dtype_add dtype) report_key_compare rows
    ↔ k ∈ rows.*1 ∧ v = dtype_wrap dtype (key_total k rows)).
  { intros k v.
    apply (groupby_sum_elem_of report_key_compare report_key_compare_eq
             report_key_compare_antisym report_key_compare_trans).
    exact Hfit. }
  exists (groupby_sum (dtype_add dtype) report_key_compare rows).
  split; [|split; [|split]].
  - subst rows to_period dtype records. revert Hne Hdates.
    unfold generate_report, records_get. rewrite Hu.
    destruct (financial_records m !! username u) as [[|r0 l]|]; [done| |done].
    simpl. intros _ ->.
    destruct Hperiod as [->| ->].
    + by rewrite decide_True.
    + rewrite decide_False by done. by rewrite decide_True.
  - apply groupby_sum_ascending.
    + apply report_key_compare_antisym.
    + apply report_key_compare_trans.
  - exact Helem.
  - intros Hall Hsums.
    assert (Hd : dtype = Int64)
      by (apply infer_dtype_int64, Forall_fmap; exact Hall).
    split.
    + intros k v. rewrite Helem, Hd.
      by rewrite (dtype_wrap_int64 _ (Hsums k)).
    + rewrite Hd.
      rewrite (groupby_sum_exact report_key_compare report_key_compare_eq
                 report_key_compare_antisym report_key_compare_trans).
      * apply frame_total_groupby_sum.
      * apply Forall_forall. intros kv Hin.
        apply (report_rows_amounts to_period dates) in Hin.
        apply list_elem_of_fmap in Hin as (record & -> & Hrec).
        by apply (proj1 (Forall_forall _ _) Hall).
      * exact Hsums.
Qed.
End PeriodReport.

Lemma generate_report_groups_witness :
  ∃ report,
    generate_report iso_dates month_ordinal week_ordinal "monthly"
      (m_with [rec_salary; rec_groceries; rec_snack;
               mkRecord "snack" 7 "food" "expense" "2024-04-02"])
    = Returned
        (mkRun (Some report) [ReportFrame report]
           (m_with [rec_salary; rec_groceries; rec_snack;
                    mkRecord "snack" 7 "food" "expense" "2024-04-02"]))
    ∧ ((650, "expense", "food"), 30) ∈ report
    ∧ ((651, "expense", "food"), 7) ∈ report.
Proof.
  pose (records := [rec_salary; rec_groceries; rec_snack;
                    mkRecord "snack" 7 "food" "expense" "2024-04-02"]).
  assert (Hne : records_get (m_with records) (username alice) ≠ []).
  { change (records ≠ []). discriminate. }
  assert (Hdates : iso_dates (date <$> records_get (m_with records)
                                (username alice))
                   = Some [(2024, 3, 1); (2024, 3, 3); (2024, 3, 4);
                           (2024, 4, 2)]).
  { vm_compute. reflexivity. }
  destruct (generate_report_groups iso_dates month_ordinal week_ordinal
              "monthly" (m_with records) alice _ eq_refl Hne Hdates
              (or_introl eq_refl))
    as (report & Hrun & _ & Hrows & _).
  exists report. split; [exact Hrun|].
  split; apply Hrows; split; vm_compute; try reflexivity.
  - do 1 apply list_elem_of_further. apply list_elem_of_here.
  - do 3 apply list_elem_of_further. apply list_elem_of_here.
Defined.

(** ** How record operations compose *)

Section Compose.
Implicit Types (l : list FinancialRecord) (m : FinanceManager).

Lemma delete_snoc l (r : FinancialRecord) : delete (length l) (l ++ [r]) = l.
Proof.
  induction l as [|x l IH]; [done|]. simpl. by rewrite IH.
Qed.

Lemma assign_fields_idemp d a c t (r : FinancialRecord) :
  assign_fields d a c t (assign_fields d a c t r) = assign_fields d a c t r.
Proof. by destruct d, a, c, t. Qed.

Lemma alter_assign_idemp d a c t i l :
  alter (assign_fields d a c t) i (alter (assign_fields d a c t) i l)
  = alter (assign_fields d a c t) i l.
Proof.
  revert i. induction l as [|x l IH]; intros [|i]; simpl; try done.
  - by rewrite assign_fields_idemp.
  - f_equal. apply IH.
Qed.

Lemma alter_assign_none i l :
  alter (assign_fields None None None None) i l = l.
Proof.
  revert i. induction l as [|x l IH]; intros [|i]; simpl; try done.
  f_equal. apply IH.
Qed.
End Compose.

(** X11. Deleting the record just added undoes the addition: for a
    logged-in user with [n] records, [add_record] followed by
    [delete_record n] succeeds and leaves every user's list as it was.
    The store itself is the old one with the user's list stored under the
    user's name, so a user who had no key before now has the empty list. *)
Theorem add_then_delete_last (now d : string) (a : Z) (c t : string)
    (m : FinanceManager) (u : User) (Hu : current_user m = Some u) :
  let n := Z.of_nat (length (records_get m (username u))) in
  let r := delete_record n (after (add_record now d a c t m)) in
  printed r = [Text "Record deleted successfully!!!"]
  ∧ financial_records (after r)
    = <[username u := records_get m (username u)]> (financial_records m)
  ∧ (∀ name, records_get (after r) name = records_get m name)
  ∧ (is_Some (financial_records m !! username u) →
     financial_records (after r) = financial_records m).
Proof.
  intros n r. subst r n.
  rewrite (add_record_logged_in _ _ _ _ _ _ _ Hu).
  rewrite (delete_record_accepted _ _ u); simpl; [|done|].
  2: { rewrite records_get_set, lookup_insert_eq. simpl.
       rewrite length_app. simpl. lia. }
  rewrite records_get_set, lookup_insert_eq. simpl.
  rewrite Nat2Z.id, delete_snoc, insert_insert_eq.
  split; [done|]. split; [done|]. split.
  - intros name. unfold records_get at 1. simpl.
    destruct (decide (name = username u)) as [->|Hne].
    + by rewrite lookup_insert_eq.
    + by rewrite lookup_insert_ne.
  - intros [l Hl]. apply insert_id. unfold records_get. by rewrite Hl.
Qed.

Lemma add_then_delete_last_witness :
  current_user (m_with [rec_salary]) = Some alice
  ∧ financial_records
      (after (delete_record 1
                (after (add_record "2024-03-09" "tea" 3 "food" "expense"
                                   (m_with [rec_salary])))))
    = financial_records (m_with [rec_salary]).
Proof.
  split; [reflexivity|].
  destruct (add_then_delete_last "2024-03-09" "tea" 3 "food" "expense"
              (m_with [rec_salary]) alice eq_refl) as (_ & _ & _ & Hsame).
  apply Hsame. by eexists.
Defined.

(** X12. [update_record] can be repeated without harm, and an update that
    supplies no field changes no record: for a logged-in user and an index
    in bounds, a second call with the same arguments leaves the manager as
    the first left it, and a call with all four fields [None] keeps the
    record store, while still reporting success and rewriting the file. *)
Theorem update_record_repeat (record_index : Z) (d : option string)
    (a : option Z) (c t : option string) (m : FinanceManager) (u : User)
    (Hu : current_user m = Some u)
    (Hr : 0 ≤ record_index < Z.of_nat (length (records_get m (username u)))) :
  let m1 := after (update_record record_index d a c t m) in
  after (update_record record_index d a c t m1) = m1
  ∧ printed (update_record record_index d a c t m1)
    = [Text "Congrats! Record updated successfully."]
  ∧ financial_records
      (after (update_record record_index None None None None m))
    = financial_records m
  ∧ printed (update_record record_index None None None None m)
    = [Text "Congrats! Record updated successfully."]
  ∧ finance_file (after (update_record record_index None None None None m))
    = Json (records_to_save (financial_records m)).
Proof.
  intros m1. subst m1.
  rewrite !(update_record_accepted _ _ _ _ _ _ _ Hu Hr).
  assert (Hnone :
    <[username u := alter (assign_fields None None None None)
                          (Z.to_nat record_index)
                          (records_get m (username u))]> (financial_records m)
    = financial_records m).
  { rewrite alter_assign_none. apply insert_id.
    by apply (in_range_stored record_index). }
  simpl. rewrite (update_record_accepted _ _ _ _ _ _ u); simpl; [|done|].
  2: { rewrite records_get_set, lookup_insert_eq. simpl.
       by rewrite length_alter. }
  rewrite records_get_set, lookup_insert_eq. simpl.
  rewrite alter_assign_idemp, insert_insert_eq.
  split; [done|]. split; [done|]. split; [done|]. split; [done|].
  unfold save_financial_records. simpl. by rewrite Hnone.
Qed.

Lemma update_record_repeat_witness :
  after (update_record 0 (Some "pay") None None None
           (after (update_record 0 (Some "pay") None None None
                     (m_with [rec_salary]))))
  = after (update_record 0 (Some "pay") None None None (m_with [rec_salary])).
Proof.
  assert (Hr : 0 ≤ 0 < Z.of_nat (length (records_get (m_with [rec_salary])
                                                     (username alice)))).
  { change (0 ≤ 0 < 1). lia. }
  exact (proj1 (update_record_repeat 0 (Some "pay") None None None
                  (m_with [rec_salary]) alice eq_refl Hr)).
Defined.

(** ** Typing a password *)

Section Typing.
Implicit Types (keys typed rest : list ascii) (password : string).
Implicit Types (writes echo : list string) (char : ascii).

Lemma string_length_snoc password char :
  String.length (password +:+ String char "") = S (String.length password).
Proof. induction password as [|a p IH]; simpl; [done|]. by rewrite IH. Qed.

Lemma substring_prefix password (s : string) :
  substring 0 (String.length password) (password +:+ s) = password.
Proof.
  induction password as [|a p IH]; simpl.
  - by destruct s.
  - by rewrite IH.
Qed.

Lemma but_last_snoc password char :
  but_last (password +:+ String char "") = password.
Proof.
  unfold but_last. rewrite string_length_snoc. simpl.
  rewrite Nat.sub_0_r. apply substring_prefix.
Qed.

Lemma snoc_not_empty password char : password +:+ String char "" ≠ "".
Proof. by destruct password. Qed.

Lemma plain_key_step char keys password writes :
  plain_key char →
  input_password_loop (char :: keys) password writes
  = input_password_loop keys (password +:+ String char "") (writes ++ ["*"]).
Proof.
  intros (Hcr & Hlf & Hbs & Hascii). simpl.
  rewrite decide_False by (by intros [?|?]).
  rewrite decide_False by done. by rewrite decide_True.
Qed.

Lemma backspace_step keys password writes :
  input_password_loop (key_BS :: keys) password writes
  = if decide (password = "")
    then input_password_loop keys password writes
    else input_password_loop keys (but_last password) (writes ++ [erase_seq]).
Proof. reflexivity. Qed.

Lemma loop_password_writes keys password writes1 writes2 :
  typing_password (input_password_loop keys password writes1)
  = typing_password (input_password_loop keys password writes2).
Proof.
  revert password writes1 writes2.
  induction keys as [|char keys IH]; intros password writes1 writes2; [done|].
  simpl. repeat case_decide; try done; apply IH.
Qed.

Lemma but_last_empty : but_last "" = "".
Proof. reflexivity. Qed.

Lemma typed_loop typed enter rest password writes :
  Forall (λ char, plain_key char ∨ char = key_BS) typed →
  enter = key_CR ∨ enter = key_LF →
  ∃ echo,
    input_password_loop (typed ++ enter :: rest) password writes
    = Entered (typed_text typed password) (writes ++ echo ++ [nl]) rest
    ∧ Forall (λ w, w = "*" ∨ w = erase_seq) echo
    ∧ (length (filter (λ w, w = "*") echo) + String.length password
       = String.length (typed_text typed password)
         + length (filter (λ w, w = erase_seq) echo))%nat.
Proof.
  intros Htyped Henter. revert password writes.
  induction Htyped as [|char typed Hchar _ IH]; intros password writes.
  - exists []. simpl. rewrite decide_True by done. split; [done|].
    split; [constructor|]. simpl. lia.
  - rewrite <- app_comm_cons. destruct Hchar as [Hplain| ->].
    + rewrite (plain_key_step _ _ _ _ Hplain).
      destruct (IH (password +:+ String char "") (writes ++ ["*"]))
        as (echo & Hrun & Hecho & Hcount).
      exists ("*" :: echo). simpl typed_text.
      rewrite decide_False by apply Hplain.
      split; [by rewrite Hrun, <- app_assoc|].
      split; [constructor; [by left|done]|].
      rewrite string_length_snoc in Hcount.
      rewrite !filter_cons. rewrite decide_True by done.
      rewrite decide_False by done. simpl. lia.
    + rewrite backspace_step. simpl typed_text.
      case_decide as Hempty.
      * subst password. rewrite but_last_empty.
        destruct (IH "" writes) as (echo & Hrun & Hecho & Hcount).
        by exists echo.
      * destruct (IH (but_last password) (writes ++ [erase_seq]))
          as (echo & Hrun & Hecho & Hcount).
        exists (erase_seq :: echo).
        split; [by rewrite Hrun, <- app_assoc|].
        split; [constructor; [by right|done]|].
        rewrite !filter_cons. rewrite decide_False by done.
        rewrite decide_True by done. simpl.
        assert (Hlen : S (String.length (but_last password))
                       = String.length password).
        { unfold but_last. destruct password as [|a p]; [done|]. simpl.
          rewrite Nat.sub_0_r. clear.
          revert a. induction p as [|b p IHp]; intros a; [done|].
          simpl. by rewrite (IHp b). }
        lia.
Qed.

Lemma waiting_loop typed password writes :
  Forall (λ char, plain_key char ∨ char = key_BS) typed →
  input_password_loop typed password writes = AwaitingKey.
Proof.
  intros Htyped. revert password writes.
  induction Htyped as [|char typed Hchar _ IH]; intros password writes;
    [done|].
  destruct Hchar as [Hplain| ->].
  - rewrite (plain_key_step _ _ _ _ Hplain). apply IH.
  - rewrite backspace_step. case_decide; apply IH.
Qed.

Lemma decode_loop typed bad rest password writes :
  Forall (λ char, plain_key char ∨ char = key_BS) typed →
  (128 ≤ nat_of_ascii bad)%nat →
  input_password_loop (typed ++ bad :: rest) password writes = DecodeError.
Proof.
  intros Htyped Hbad. revert password writes.
  induction Htyped as [|char typed Hchar _ IH]; intros password writes.
  - simpl.
    rewrite decide_False
      by (intros [->| ->]; vm_compute in Hbad; lia).
    rewrite decide_False by (intros ->; vm_compute in Hbad; lia).
    rewrite decide_False by lia. done.
  - rewrite <- app_comm_cons. destruct Hchar as [Hplain| ->].
    + rewrite (plain_key_step _ _ _ _ Hplain). apply IH.
    + rewrite backspace_step. case_decide; apply IH.
Qed.

Lemma cancel_loop pre post char password writes :
  plain_key char →
  typing_password
    (input_password_loop (pre ++ char :: key_BS :: post) password writes)
  = typing_password (input_password_loop (pre ++ post) password writes).
Proof.
  intros Hplain. revert password writes.
  induction pre as [|k pre IH]; intros password writes.
  - simpl app. rewrite (plain_key_step _ _ _ _ Hplain), backspace_step.
    rewrite decide_False by apply snoc_not_empty.
    rewrite but_last_snoc. apply loop_password_writes.
  - rewrite <- !app_comm_cons. simpl.
    repeat case_decide; try done; apply IH.
Qed.
End Typing.

Ltac plain_key_tac :=
  repeat split; [discriminate | discriminate | discriminate | vm_compute; lia].

(** X13. [input_password] returns at the first Enter (carriage return or
    line feed): when the keys before it are ASCII characters and
    backspaces, the password is the text those keys spell, each backspace
    taking back the last character if there is one; the keys after Enter
    are left unread; and what was written to the terminal is the prompt,
    then asterisks and erasures, then the line break, the asterisks
    outnumbering the erasures by the length of the password.  On such keys
    without an Enter the call keeps waiting, and it raises when a byte
    that is not ASCII comes before Enter. *)
Theorem input_password_returns (prompt : string) (typed rest : list ascii)
    (Htyped : Forall (λ char, plain_key char ∨ char = key_BS) typed) :
  (∀ enter, enter = key_CR ∨ enter = key_LF →
     ∃ echo,
       input_password prompt (typed ++ enter :: rest)
       = Entered (typed_text typed "") (prompt :: echo ++ [nl]) rest
       ∧ Forall (λ w, w = "*" ∨ w = erase_seq) echo
       ∧ length (filter (λ w, w = "*") echo)
         = (String.length (typed_text typed "")
            + length (filter (λ w, w = erase_seq) echo))%nat)
  ∧ input_password prompt typed = AwaitingKey
  ∧ (∀ bad, (128 ≤ nat_of_ascii bad)%nat →
       input_password prompt (typed ++ bad :: rest) = DecodeError).
Proof.
  unfold input_password. split; [|split].
  - intros enter Henter.
    destruct (typed_loop typed enter rest "" [prompt] Htyped Henter)
      as (echo & Hrun & Hecho & Hcount).
    exists echo. split; [exact Hrun|]. split; [done|].
    simpl in Hcount. lia.
  - by apply waiting_loop.
  - intros bad Hbad. by apply decode_loop.
Qed.

Lemma input_password_returns_witness :
  ∃ echo,
    input_password "Enter password: "
      ["a"; "b"; key_BS; "c"; key_CR; "x"]%char
    = Entered "ac" ("Enter password: " :: echo ++ [nl]) ["x"%char].
Proof.
  assert (Htyped : Forall (λ char, plain_key char ∨ char = key_BS)
                          ["a"; "b"; key_BS; "c"]%char).
  { apply Forall_cons_2; [left; plain_key_tac|].
    apply Forall_cons_2; [left; plain_key_tac|].
    apply Forall_cons_2; [by right|].
    apply Forall_cons_2; [left; plain_key_tac|]. constructor. }
  destruct (proj1 (input_password_returns "Enter password: "
                     ["a"; "b"; key_BS; "c"]%char ["x"%char] Htyped)
                  key_CR (or_introl eq_refl))
    as (echo & Hrun & _).
  exists echo. exact Hrun.
Defined.

(** X14. A character followed by a backspace leaves no trace in the
    password: wherever the two keys are put into a stream of keys, the
    call ends with the same password, or without one, as on the stream
    without them.  A backspace typed before any character is ignored. *)
Theorem input_password_cancel (prompt : string) (pre post : list ascii)
    (char : ascii) (Hplain : plain_key char) :
  typing_password (input_password prompt (pre ++ char :: key_BS :: post))
  = typing_password (input_password prompt (pre ++ post))
  ∧ typing_password (input_password prompt (key_BS :: post))
    = typing_password (input_password prompt post).
Proof.
  unfold input_password. split.
  - by apply cancel_loop.
  - by rewrite backspace_step, decide_True.
Qed.

Lemma input_password_cancel_witness :
  typing_password
    (input_password "Password: " ["a"; "z"; key_BS; "b"; key_LF]%char)
  = Some "ab".
Proof.
  assert (Hz : plain_key "z"%char) by plain_key_tac.
  etransitivity.
  - exact (proj1 (input_password_cancel "Password: " ["a"%char]
                    ["b"; key_LF]%char "z"%char Hz)).
  - reflexivity.
Defined.

(** ** The menu entries *)

Section MenuGuards.
Variable python_int : string → option Z.
Variable python_float : string → option Z.

(** X15. The add and delete entries of the menu reach the manager only
    through [add_record] and [delete_record]: with a user logged in and an
    input that parses, the manager afterwards is the one the method
    returns, the text fields being passed on as typed, blank or not; when
    [float] or [int] raises [ValueError], or when nobody is logged in, the
    manager is left untouched and nothing is added or deleted. *)
Theorem menu_add_delete_guards (m : FinanceManager) :
  (∀ now d a_in c t,
     python_float a_in = None →
     after (menu_add python_float now d a_in c t m) = m)
  ∧ (∀ index_in,
     python_int index_in = None →
     after (menu_delete python_int index_in m) = m)
  ∧ (current_user m = None →
     (∀ now d a_in c t,
        menu_add python_float now d a_in c t m
        = mkRun tt [Text "******ADD RECORDS******";
                    Text "Please log in first."] m)
     ∧ (∀ index_in,
        menu_delete python_int index_in m
        = mkRun tt [Text "******DELETE RECORDS******";
                    Text "Please log in first."] m))
  ∧ (∀ u now d a_in a c t,
     current_user m = Some u → python_float a_in = Some a →
     after (menu_add python_float now d a_in c t m)
     = after (add_record now d a c t m)
     ∧ records_get (after (menu_add python_float now d a_in c t m))
                   (username u)
       = records_get m (username u) ++ [mkRecord d a c t now])
  ∧ (∀ u index_in i,
     current_user m = Some u → python_int index_in = Some i →
     after (menu_delete python_int index_in m) = after (delete_record i m)).
Proof.
  split; [|split; [|split; [|split]]].
  - intros now d a_in c t Ha. unfold menu_add. rewrite Ha.
    destruct (current_user m); [|done]. simpl. apply display_records_after.
  - intros index_in Hi. unfold menu_delete. rewrite Hi.
    destruct (current_user m); [|done]. simpl. apply display_records_after.
  - intros Hnone. unfold menu_add, menu_delete. by rewrite Hnone.
  - intros u now d a_in a c t Hu Ha. unfold menu_add. rewrite Hu, Ha. simpl.
    rewrite display_records_after. split; [done|].
    rewrite (add_record_logged_in _ _ _ _ _ _ _ Hu). simpl.
    by rewrite records_get_set, lookup_insert_eq.
  - intros u index_in i Hu Hi. unfold menu_delete. rewrite Hu, Hi. simpl.
    by rewrite display_records_after.
Qed.
End MenuGuards.

Lemma menu_add_delete_guards_witness :
  after (menu_add decimal "2024-03-09" "tea" "three" "food" "expense"
                  (m_with [rec_salary]))
  = m_with [rec_salary]
  ∧ after (menu_delete decimal "first" (m_with [rec_salary]))
    = m_with [rec_salary]
  ∧ records_get (after (menu_add decimal "2024-03-09" "" "3" "" ""
                                 (m_with [rec_salary]))) "alice"
    = [rec_salary; mkRecord "" 3 "" "" "2024-03-09"].
Proof.
  pose proof (menu_add_delete_guards decimal decimal (m_with [rec_salary]))
    as (Hadd & Hdel & _ & Hok & _).
  split; [|split].
  - apply Hadd. reflexivity.
  - apply Hdel. reflexivity.
  - exact (proj2 (Hok alice "2024-03-09" "" "3" 3 "" "" eq_refl eq_refl)).
Defined.

(** ** Reading never writes *)

Section ReadOnly.
Context {Timestamp : Type}.
Variable to_datetime : list string → option (list Timestamp).
Variable to_period_M : Timestamp → Z.
Variable to_period_W : Timestamp → Z.

Lemma view_spending_distribution_after (m : FinanceManager) (r : Run unit) :
  view_spending_distribution to_datetime m = Returned r → after r = m.
Proof.
  unfold view_spending_distribution.
  destruct (current_user m) as [u|]; [|by intros [= <-]].
  destruct (financial_records m !! username u) as [[|r0 l]|];
    [by intros [= <-]| |by intros [= <-]].
  destruct (to_datetime _); [|done].
  destruct (expense_rows _); by intros [= <-].
Qed.

(** X16. The five reading operations never change the manager, in any
    state and for any argument: [display_records], [calculate_totals] and
    [calculate_savings] return it as it was, and so do [generate_report]
    and [view_spending_distribution] whenever they return; users, session,
    records and both files are what they were. *)
Theorem reading_never_writes (m : FinanceManager) :
  after (display_records m) = m
  ∧ after (calculate_totals m) = m
  ∧ after (calculate_savings m) = m
  ∧ (∀ period r,
       generate_report to_datetime to_period_M to_period_W period m
       = Returned r → after r = m)
  ∧ (∀ r, view_spending_distribution to_datetime m = Returned r →
          after r = m).
Proof.
  split; [apply display_records_after|].
  split; [unfold calculate_totals; by destruct (current_user m)|].
  split; [unfold calculate_savings; by destruct (current_user m)|].
  split.
  - intros period r. apply generate_report_after.
  - apply view_spending_distribution_after.
Qed.
End ReadOnly.

Lemma reading_never_writes_witness :
  generate_report iso_dates month_ordinal week_ordinal "weekly"
    (m_with [rec_salary; rec_lunch])
  = Returned
      (mkRun (Some [((2827, "expense", "food"), 30);
                    ((2827, "income", "job"), 100)])
             [ReportFrame [((2827, "expense", "food"), 30);
                           ((2827, "income", "job"), 100)]]
             (m_with [rec_salary; rec_lunch]))
  ∧ after (mkRun (Some [((2827, "expense", "food"), 30);
                        ((2827, "income", "job"), 100)])
                 [ReportFrame [((2827, "expense", "food"), 30);
                               ((2827, "income", "job"), 100)]]
                 (m_with [rec_salary; rec_lunch]))
    = m_with [rec_salary; rec_lunch].
Proof.
  split; [reflexivity|].
  apply (proj1 (proj2 (proj2 (proj2
           (reading_never_writes iso_dates month_ordinal week_ordinal
              (m_with [rec_salary; rec_lunch]))))) "weekly").
  reflexivity.
Defined.

(** ** One user at a time *)

(** X17. Each user sees only their own records: when the user store is
    keyed by username and a user is logged in, whatever that user adds,
    a later successful login under another name shows, line for line, the
    records that name had before, none of the first user's. *)
Theorem login_shows_own_records (now d : string) (a : Z) (c t : string)
    (name pass : string) (m : FinanceManager) (u : User)
    (Hok : session_ok m) (Hu : current_user m = Some u)
    (Hother : name ≠ username u) :
  let m1 := after (add_record now d a c t m) in
  let r := authenticate_user name pass m1 in
  ret r = true →
  records_get (after r) name = records_get m name
  ∧ listing (after r)
    = imap (λ index record, Text (record_line index record))
           (records_get m name)
  ∧ records_get (after r) (username u)
    = records_get m (username u) ++ [mkRecord d a c t now].
Proof.
  intros m1 r. subst r m1. destruct Hok as [Hk _].
  rewrite (add_record_logged_in _ _ _ _ _ _ _ Hu).
  unfold authenticate_user. simpl.
  destruct (users m !! name) as [u'|] eqn:Hname; [|done].
  case_decide; [|done]. simpl. intros _.
  assert (Hname' : username u' = name) by (by apply (Hk name u')).
  assert (Hget : ∀ m', current_user m' = Some u' →
            financial_records m'
            = <[username u := records_get m (username u)
                              ++ [mkRecord d a c t now]]>
                (financial_records m) →
            records_get m' name = records_get m name).
  { intros m' _ Hfr. unfold records_get. rewrite Hfr.
    by rewrite lookup_insert_ne. }
  split; [by apply Hget|]. split.
  - erewrite listing_logged_in; [|reflexivity]. simpl username.
    rewrite Hname'. f_equal. by apply Hget.
  - unfold records_get at 1. simpl. by rewrite lookup_insert_eq.
Qed.

Lemma login_shows_own_records_witness :
  listing
    (after (authenticate_user "bob" "pw"
       (after (add_record "2024-03-09" "tea" 3 "food" "expense"
          (after (register_user "bob" "pw" (m_with [rec_salary])))))))
  = [].
Proof.
  pose (m := after (register_user "bob" "pw" (m_with [rec_salary]))).
  assert (Hok : session_ok m).
  { split.
    - intros k v Hkv. change (users m) with
        (<["bob" := mkUser "bob" "pw"]> ({[ "alice" := alice ]}
                                           : gmap string User)) in Hkv.
      apply lookup_insert_Some in Hkv as [[<- <-]|[_ Hkv]]; [done|].
      apply lookup_singleton_Some in Hkv as [<- <-]. done.
    - intros v Hv. change (Some alice = Some v) in Hv.
      injection Hv as <-. reflexivity. }
  assert (Hne : "bob" ≠ username alice) by discriminate.
  exact (proj1 (proj2 (login_shows_own_records "2024-03-09" "tea" 3 "food"
                         "expense" "bob" "pw" m alice Hok eq_refl Hne
                         eq_refl))).
Defined.

(** ** The listing and the index arguments *)

(** X18. The numbers of the listing are the indices the methods take:
    for a logged-in user, [display_records] prints a line for position [i]
    exactly when [delete_record i] is accepted; that line carries the
    number [i] and the record at position [i], which is the record that
    [delete_record i] removes and that [update_record i] rewrites. *)
Theorem listing_numbers_are_indices (m : FinanceManager) (u : User)
    (Hu : current_user m = Some u) :
  let l := records_get m (username u) in
  (∀ i : nat,
     is_Some (listing m !! i)
     ↔ printed (delete_record (Z.of_nat i) m)
       = [Text "Record deleted successfully!!!"])
  ∧ (∀ (i : nat) (r : FinancialRecord),
     l !! i = Some r →
     listing m !! i = Some (Text (record_line i r))
     ∧ records_get (after (delete_record (Z.of_nat i) m)) (username u)
       = delete i l
     ∧ ∀ d a c t,
         records_get (after (update_record (Z.of_nat i) d a c t m))
                     (username u)
         = <[i := assign_fields d a c t r]> l).
Proof.
  intros l. split.
  - intros i. rewrite (listing_logged_in _ _ Hu), list_lookup_imap.
    fold l. rewrite fmap_is_Some, lookup_lt_is_Some.
    destruct (decide (i < length l)%nat) as [Hlt|Hge].
    + rewrite (delete_record_accepted _ _ _ Hu) by (fold l; lia). done.
    + rewrite delete_record_rejected.
      * split; [done|]. simpl. discriminate.
      * right. exists u. split; [done|]. fold l. lia.
  - intros i r Hi.
    assert (Hr : 0 ≤ Z.of_nat i
                 < Z.of_nat (length (records_get m (username u)))).
    { fold l. apply lookup_lt_Some in Hi. lia. }
    split; [|split].
    + by rewrite (listing_logged_in _ _ Hu), list_lookup_imap; fold l;
        rewrite Hi.
    + rewrite (delete_record_accepted _ _ _ Hu Hr). simpl.
      by rewrite records_get_set, lookup_insert_eq, Nat2Z.id.
    + intros d a c t.
      rewrite (update_record_accepted _ _ _ _ _ _ _ Hu Hr). simpl.
      rewrite records_get_set, lookup_insert_eq, Nat2Z.id. simpl. fold l.
      apply list_eq. intros j. destruct (decide (i = j)) as [<-|Hne].
      * rewrite list_lookup_alter_eq, Hi. simpl.
        rewrite list_lookup_insert_eq; [done|]. by eapply lookup_lt_Some.
      * by rewrite list_lookup_alter_ne, list_lookup_insert_ne.
Qed.

Lemma listing_numbers_are_indices_witness :
  listing (m_with [rec_salary; rec_lunch]) !! 1%nat
  = Some (Text "1. lunch | Amount: 30 | Category: food | Type: expense | Date: 2024-03-02")
  ∧ records_get (after (delete_record 1 (m_with [rec_salary; rec_lunch])))
                "alice"
    = [rec_salary].
Proof.
  destruct (proj2 (listing_numbers_are_indices
                     (m_with [rec_salary; rec_lunch]) alice eq_refl)
                  1%nat rec_lunch eq_refl) as (Hline & Hdel & _).
  split; [exact Hline | exact Hdel].
Defined.

(** ** Dates and passwords as stored *)

(** X19. Every stored record carries a date: provided the current date is
    written with at least one character, the store that
    [load_financial_records] builds from any file has no record with an
    empty date, and [add_record], [delete_record] and [update_record] keep
    it so, an update never touching the date. *)
Theorem dates_set_invariant (now : string) (m : FinanceManager)
    (Hnow : now ≠ "") :
  dates_set (financial_records (after (load_financial_records now m)))
  ∧ (dates_set (financial_records m) →
     (∀ d a c t,
        dates_set (financial_records (after (add_record now d a c t m))))
     ∧ (∀ i, dates_set (financial_records (after (delete_record i m))))
     ∧ (∀ i d a c t,
        dates_set
          (financial_records (after (update_record i d a c t m))))).
Proof.
  split; [by apply load_financial_records_dates_set|].
  intros Hd. split; [|split].
  - intros d a c t. by apply add_record_dates_set.
  - intros i. by apply delete_record_dates_set.
  - intros i d a c t. by apply update_record_dates_set.
Qed.

Lemma dates_set_invariant_witness :
  "2024-03-09" ≠ ""
  ∧ dates_set
      (financial_records
         (after (load_financial_records "2024-03-09"
            (set_finance_file
               (Json [mkRow "bob" "tea" 3 "food" "expense" (Some "")])
               m_registered)))).
Proof.
  assert (Hnow : "2024-03-09" ≠ "") by discriminate.
  split; [exact Hnow|].
  exact (proj1 (dates_set_invariant "2024-03-09"
                  (set_finance_file
                     (Json [mkRow "bob" "tea" 3 "food" "expense" (Some "")])
                     m_registered) Hnow)).
Defined.

(** X20. Passwords are kept as typed: after a successful registration the
    users file holds an object with exactly the username and the password
    given, next to one object for every user registered before, and it
    holds nothing else. *)
Theorem register_user_writes_password (name pass : string)
    (m : FinanceManager) (Hfree : users m !! name = None) :
  ∃ doc,
    users_file (after (register_user name pass m)) = Json doc
    ∧ mkUserRow name pass ∈ doc
    ∧ (∀ other u, users m !! other = Some u → User_to_dict u ∈ doc)
    ∧ (∀ row, row ∈ doc →
         row = mkUserRow name pass
         ∨ ∃ other u, users m !! other = Some u ∧ row = User_to_dict u).
Proof.
  rewrite (register_user_fresh _ _ _ Hfree). simpl.
  eexists. split; [reflexivity|].
  assert (Hdoc : ∀ row,
    row ∈ User_to_dict <$> (map_to_list (<[name := mkUser name pass]>
                                           (users m))).*2
    ↔ ∃ k u, <[name := mkUser name pass]> (users m) !! k = Some u
             ∧ row = User_to_dict u).
  { intros row. rewrite list_elem_of_fmap. split.
    - intros (u & -> & Hin).
      apply list_elem_of_fmap in Hin as ([k u'] & -> & Hin).
      apply elem_of_map_to_list in Hin. by exists k, u'.
    - intros (k & u & Hk & ->). exists u. split; [done|].
      apply list_elem_of_fmap. exists (k, u). split; [done|].
      by apply elem_of_map_to_list. }
  split; [|split].
  - apply Hdoc. exists name, (mkUser name pass).
    by rewrite lookup_insert_eq.
  - intros other u Hu. apply Hdoc. exists other, u. split; [|done].
    rewrite lookup_insert_ne; [done|]. intros ->. congruence.
  - intros row (k & u & Hk & ->)%Hdoc.
    apply lookup_insert_Some in Hk as [[<- <-]|[Hne Hk]].
    + by left.
    + right. by exists k, u.
Qed.

Lemma register_user_writes_password_witness :
  users m_registered !! "bob" = None
  ∧ ∃ doc, users_file (after (register_user "bob" "pw" m_registered))
           = Json doc
           ∧ mkUserRow "bob" "pw" ∈ doc.
Proof.
  split; [reflexivity|].
  destruct (register_user_writes_password "bob" "pw" m_registered eq_refl)
    as (doc & Hfile & Hin & _).
  exists doc. split; [exact Hfile | exact Hin].
Defined.
